(** * BoltzPay agent-framework adapters: the CLI bridge and the tool adapters

    A shallow embedding of the two Python packages of the repository,

      - [integrations/langchain/langchain_boltzpay] ([errors.py], [bridge.py],
        [tools.py]) and
      - [integrations/crewai/boltzpay_crewai]       ([errors.py], [bridge.py],
        [tools.py]),

    together with the properties of the bridge protocol and of the error
    taxonomy stated in the specification.

    Conventions of the embedding.

    - A Python [str] is a Rocq [string]; a character stands for the code
      point of the same number (U+0000 to U+00FF), which covers every
      literal of the source.  Text with code points above U+00FF is
      outside the model.
    - The objects [json.loads] produces are the values of [json].
    - A Python computation is a value of [M A]: the calls it made on the
      process API, in order, and how it ended (a returned value or a raised
      exception).
    - What the code takes from its surroundings is a parameter: the Python
      library functions whose results the bridge only passes on
      ([json.loads], [json.dumps], [str] of a non-string object) are the
      fields of [Runtime]; the search path and the behaviour of the child
      process are the fields of [Host]. *)

From Stdlib Require Import String Ascii List ZArith Lia Bool DecimalString.
Import ListNotations.
Local Open Scope string_scope.
Local Open Scope list_scope.
Local Open Scope Z_scope.

(** Concatenation of strings; [++] is kept for lists. *)
Infix "+++" := String.append (right associativity, at level 60).

(* ================================================================== *)
(** * Python strings *)
(* ================================================================== *)

(** [str.isspace] on one character, for the code points below 256:
    TAB, LF, VT, FF, CR, the separators U+001C to U+001F, SPACE, NEL
    (U+0085) and NO-BREAK SPACE (U+00A0). *)
Definition isspace (c : ascii) : bool :=
  let n := N_of_ascii c in
  ((9 <=? n) && (n <=? 13) || (28 <=? n) && (n <=? 32)
   || (n =? 133) || (n =? 160))%N.

(** [s.lstrip()] *)
Fixpoint lstrip (s : string) : string :=
  match s with
  | String c r => if isspace c then lstrip r else s
  | EmptyString => EmptyString
  end.

(** [s.rstrip()] *)
Fixpoint rstrip (s : string) : string :=
  match s with
  | String c r =>
      match rstrip r with
      | EmptyString => if isspace c then EmptyString else String c EmptyString
      | r' => String c r'
      end
  | EmptyString => EmptyString
  end.

(** [s.strip()] *)
Definition strip (s : string) : string := rstrip (lstrip s).

(** Truth value of a string: only the empty string is false. *)
Definition truthy (s : string) : bool :=
  match s with EmptyString => false | String _ _ => true end.

(** [a or b] on strings. *)
Definition str_or (a b : string) : string := if truthy a then a else b.

(** [args or []] on an optional list: [None] and the empty list both give
    the empty list. *)
Definition list_or_empty {A : Type} (args : option (list A)) : list A :=
  match args with
  | Some (x :: l) => x :: l
  | Some [] | None => []
  end.

(** [str(n)] for an [int]: the decimal digits, with a minus sign for a
    negative number. *)
Definition str_of_int (n : Z) : string := NilZero.string_of_int (Z.to_int n).

(** [needle in hay] on strings. *)
Fixpoint str_in (needle hay : string) : bool :=
  prefix needle hay
  || match hay with
     | String _ r => str_in needle r
     | EmptyString => false
     end.

(** [s[:n]] *)
Definition str_take (n : nat) (s : string) : string := substring 0 n s.

(* ================================================================== *)
(** * The objects read from JSON text *)
(* ================================================================== *)

(** [None], [True]/[False], [int], [float], [str], [list] and [dict].  A
    [float] is kept as the lexeme it was read from.  A [dict] keeps its
    items in insertion order. *)
#[warnings="-register-all"]
Inductive json : Type :=
| JNull
| JBool (b : bool)
| JInt (n : Z)
| JFloat (lexeme : string)
| JStr (s : string)
| JList (items : list json)
| JDict (items : list (string * json)).

(** Lookup of a key among the items of a [dict]. *)
Fixpoint dict_lookup (k : string) (items : list (string * json)) : option json :=
  match items with
  | [] => None
  | (k', v) :: rest => if String.eqb k k' then Some v else dict_lookup k rest
  end.

(** [d.get(k, default)] on the items of a [dict]. *)
Definition dict_get (k : string) (items : list (string * json)) (default : json) : json :=
  match dict_lookup k items with
  | Some v => v
  | None => default
  end.

(** [v is False] *)
Definition is_False (v : json) : bool :=
  match v with JBool false => true | _ => false end.

(** The part of the Python runtime whose results the bridge passes on
    without looking inside. *)
Class Runtime : Type := {
  (** [json.loads(s)]; [None] stands for [json.JSONDecodeError]. *)
  json_loads : string -> option json;
  (** [json.dumps(v, indent=n)] *)
  json_dumps : json -> Z -> string;
  (** [str(v)] for an object that is not a [str]. *)
  repr : json -> string
}.

(** [str(v)], also the text an f-string puts for [{v}]. *)
Definition py_str `{R : Runtime} (v : json) : string :=
  match v with
  | JStr s => s
  | _ => repr v
  end.

(** JSON text may be surrounded by white space: what [json.loads] reads from
    a text it also reads from the stripped text. *)
Definition loads_ignores_margin (R : Runtime) : Prop :=
  forall s v, json_loads s = Some v -> json_loads (strip s) = Some v.

(* ================================================================== *)
(** * Exceptions, the process API and computations *)
(* ================================================================== *)

(** The three exception classes of [errors.py]; the last two derive from
    the first, so that [except BoltzPayBridgeError] catches all three. *)
Inductive error_class : Type :=
| ClsBridgeError
| ClsNodeNotFoundError
| ClsTimeoutError.

(** An instance of [BoltzPayBridgeError] or of one of its subclasses: the
    attributes [code] and [message], and the one argument handed to
    [Exception.__init__], from which [str(exc)] is made. *)
Record bridge_error : Type := {
  cls : error_class;
  code : json;
  message : json;
  exc_arg : json
}.

(** [str(exc)] *)
Definition str_of_exc `{R : Runtime} (e : bridge_error) : string := py_str (exc_arg e).

Inductive exn : Type :=
| Bridge (e : bridge_error)
| FileNotFoundError
| TimeoutExpired        (* subprocess.TimeoutExpired *)
| AsyncTimeoutError     (* asyncio.TimeoutError *)
| JSONDecodeError
| KeyError
| TypeError
| AttributeError.

(** Calls on the process API. *)
Inductive event : Type :=
| SubprocessRun (cmd : list string) (timeout : Z)   (* subprocess.run *)
| CreateSubprocessExec (cmd : list string)          (* asyncio.create_subprocess_exec *)
| WaitForCommunicate (timeout : Z)                  (* asyncio.wait_for(proc.communicate(), timeout) *)
| ProcKill                                          (* proc.kill() *)
| ProcWait.                                         (* await proc.wait() *)

Inductive result (A : Type) : Type :=
| Return (a : A)
| Raise (e : exn).
Arguments Return {A} a.
Arguments Raise {A} e.

Definition M (A : Type) : Type := (list event * result A)%type.

Definition trace {A : Type} (m : M A) : list event := fst m.
Definition outcome {A : Type} (m : M A) : result A := snd m.

Definition ret {A : Type} (a : A) : M A := ([], Return a).
Definition raise {A : Type} (e : exn) : M A := ([], Raise e).
Definition emit (ev : event) : M unit := ([ev], Return tt).

Definition bind {A B : Type} (m : M A) (k : A -> M B) : M B :=
  match m with
  | (t, Return a) => let (t', r) := k a in (t ++ t', r)
  | (t, Raise e) => (t, Raise e)
  end.

(** [try: m except ...: h]; the handler answers [None] for an exception
    that no [except] clause names. *)
Definition try_except {A : Type} (m : M A) (h : exn -> option (M A)) : M A :=
  match m with
  | (t, Raise e) =>
      match h e with
      | Some m' => let (t', r) := m' in (t ++ t', r)
      | None => (t, Raise e)
      end
  | (t, Return a) => (t, Return a)
  end.

Declare Scope py_scope.
Delimit Scope py_scope with py.
Notation "x <- m ;; k" := (bind m (fun x => k))
  (at level 100, m at next level, right associativity) : py_scope.
Notation "m ;; k" := (bind m (fun _ => k))
  (at level 100, right associativity) : py_scope.
Local Open Scope py_scope.

(** [subprocess.CompletedProcess], with the output captured as text. *)
Record CompletedProcess : Type := {
  returncode : Z;
  stdout : string;
  stderr : string
}.

(** What happens when a command line is spawned: the executable is missing
    ([FileNotFoundError]), or the child starts; a started child, given the
    time it is allowed, has finished by then or is still running. *)
Inductive child : Type :=
| NoSuchFile
| Started (finish : Z -> option CompletedProcess).

(** The machine the bridge runs on. *)
Record Host : Type := {
  (** [shutil.which(name)] *)
  shutil_which : string -> option string;
  (** the child a command line starts *)
  spawn : list string -> child
}.

(** [subprocess.run(cmd, capture_output=True, text=True, timeout=timeout)] *)
Definition subprocess_run (H : Host) (cmd : list string) (timeout : Z)
  : M CompletedProcess :=
  emit (SubprocessRun cmd timeout) ;;
  match spawn H cmd with
  | NoSuchFile => raise FileNotFoundError
  | Started finish =>
      match finish timeout with
      | Some done => ret done
      | None => raise TimeoutExpired
      end
  end.

(** [await asyncio.create_subprocess_exec( *cmd, stdout=PIPE, stderr=PIPE)];
    the process object is the behaviour of the child. *)
Definition create_subprocess_exec (H : Host) (cmd : list string)
  : M (Z -> option CompletedProcess) :=
  emit (CreateSubprocessExec cmd) ;;
  match spawn H cmd with
  | NoSuchFile => raise FileNotFoundError
  | Started finish => ret finish
  end.

(** [await asyncio.wait_for(proc.communicate(), timeout=timeout)]; on
    completion the pair of outputs and, from then on, [proc.returncode]. *)
Definition wait_for_communicate (proc : Z -> option CompletedProcess) (timeout : Z)
  : M CompletedProcess :=
  emit (WaitForCommunicate timeout) ;;
  match proc timeout with
  | Some done => ret done
  | None => raise AsyncTimeoutError
  end.

(** [bytes.decode()]: the captured bytes are taken to be the text they
    encode. *)
Definition decode (b : string) : string := b.

(** [json.loads] as a computation. *)
Definition loads `{R : Runtime} (s : string) : M json :=
  match json_loads s with
  | Some v => ret v
  | None => raise JSONDecodeError
  end.

(** [v[key]] for a string key: a [dict] gives the item or [KeyError]; a
    [list] or a [str] does not take a string index and the other objects
    are not subscriptable, both [TypeError]. *)
Definition getitem (v : json) (key : string) : M json :=
  match v with
  | JDict items =>
      match dict_lookup key items with
      | Some x => ret x
      | None => raise KeyError
      end
  | _ => raise TypeError
  end.

(** [v.get(key, default)]: only a [dict] has the method. *)
Definition get_method (v : json) (key : string) (default : json) : M json :=
  match v with
  | JDict items =>
      match dict_lookup key items with
      | Some x => ret x
      | None => ret default
      end
  | _ => raise AttributeError
  end.

(** The default of the [timeout] parameter of the bridge functions. *)
Definition DEFAULT_TIMEOUT : Z := 30.

(* ================================================================== *)
(** * Package [langchain_boltzpay] *)
(* ================================================================== *)

Module Langchain.

(** ** [errors.py] *)
Module errors.

(** [BoltzPayBridgeError.__init__(self, code, message)], which the two
    subclasses reach through [super().__init__]: the attributes are set and
    [message] goes to [Exception.__init__]. *)
Definition init (c : error_class) (code message : json) : bridge_error :=
  {| cls := c; code := code; message := message; exc_arg := message |}.

(** [BoltzPayBridgeError(code, message)] *)
Definition BoltzPayBridgeError (code message : json) : bridge_error :=
  init ClsBridgeError code message.

Definition NODE_NOT_FOUND_MESSAGE : string :=
  "Node.js/npx not found. Install Node.js 20+ from "
  +++ "https://nodejs.org or use the MCP server: npx @boltzpay/mcp".

(** [BoltzPayNodeNotFoundError()] *)
Definition BoltzPayNodeNotFoundError : bridge_error :=
  init ClsNodeNotFoundError (JStr "NODE_NOT_FOUND") (JStr NODE_NOT_FOUND_MESSAGE).

(** [BoltzPayTimeoutError(timeout)] *)
Definition BoltzPayTimeoutError (timeout : Z) : bridge_error :=
  init ClsTimeoutError (JStr "TIMEOUT")
    (JStr ("BoltzPay CLI command timed out after " +++ str_of_int timeout +++ " seconds")).

End errors.

(** ** [bridge.py] *)
Module bridge.
Import errors.

(** [_find_npx()] *)
Definition _find_npx (H : Host) : M string :=
  match shutil_which H "npx" with
  | None => raise (Bridge BoltzPayNodeNotFoundError)
  | Some path => ret path
  end.

(** The statements that [run_cli] and [async_run_cli] share, word for
    word, once the process has completed and its output is text: strip
    and parse the standard output, fall back on the standard error, look
    for the error envelope. *)
Definition parse_outcome `{R : Runtime} (stdout_text stderr_text : string)
    (returncode : Z) : M json :=
  let stdout := strip stdout_text in
  data <- try_except (loads stdout)
            (fun e =>
               match e with
               | JSONDecodeError =>
                   let stderr := strip stderr_text in
                   Some (raise (Bridge (BoltzPayBridgeError (JStr "CLI_ERROR")
                           (JStr (str_or stderr
                                    ("CLI exited with code " +++ str_of_int returncode))))))
               | _ => None
               end) ;;
  (* isinstance(data, dict) and data.get("success") is False *)
  if match data with
     | JDict items => is_False (dict_get "success" items JNull)
     | _ => false
     end
  then
    error_info <- get_method data "error" (JDict []) ;;
    code <- get_method error_info "code" (JStr "UNKNOWN") ;;
    message <- get_method error_info "message" (JStr "Unknown CLI error") ;;
    raise (Bridge (BoltzPayBridgeError code message))
  else ret data.

(** [run_cli(command, args, timeout)] *)
Definition run_cli `{R : Runtime} (H : Host) (command : string)
    (args : option (list string)) (timeout : Z) : M json :=
  npx <- _find_npx H ;;
  let cmd := [npx; "-y"; "@boltzpay/cli"; command] ++ list_or_empty args ++ ["--json"] in
  result <- try_except (subprocess_run H cmd timeout)
              (fun e =>
                 match e with
                 | FileNotFoundError => Some (raise (Bridge BoltzPayNodeNotFoundError))
                 | TimeoutExpired => Some (raise (Bridge (BoltzPayTimeoutError timeout)))
                 | _ => None
                 end) ;;
  parse_outcome (stdout result) (stderr result) (returncode result).

(** [async_run_cli(command, args, timeout)] *)
Definition async_run_cli `{R : Runtime} (H : Host) (command : string)
    (args : option (list string)) (timeout : Z) : M json :=
  npx <- _find_npx H ;;
  let cmd := [npx; "-y"; "@boltzpay/cli"; command] ++ list_or_empty args ++ ["--json"] in
  proc <- try_except (create_subprocess_exec H cmd)
            (fun e =>
               match e with
               | FileNotFoundError => Some (raise (Bridge BoltzPayNodeNotFoundError))
               | _ => None
               end) ;;
  done <- try_except (wait_for_communicate proc timeout)
            (fun e =>
               match e with
               | AsyncTimeoutError =>
                   Some (emit ProcKill ;;
                         emit ProcWait ;;
                         raise (Bridge (BoltzPayTimeoutError timeout)))
               | _ => None
               end) ;;
  parse_outcome (decode (stdout done)) (decode (stderr done)) (returncode done).

End bridge.

(** ** [tools.py] *)
Module tools.
Import bridge.

(** [json.dumps(result, indent=2)] of what the bridge call returned. *)
Definition dumped `{R : Runtime} (call : M json) : M string :=
  result <- call ;;
  ret (json_dumps result 2).

Module BoltzPayFetchTool.
Definition _run `{R : Runtime} (H : Host) (url method : string) (chain : option string)
  : M string :=
  let cli_args := [url; "--method"; method] in
  let cli_args :=
    match chain with
    | Some c => if truthy c then cli_args ++ ["--chain"; c] else cli_args
    | None => cli_args
    end in
  dumped (run_cli H "fetch" (Some cli_args) DEFAULT_TIMEOUT).
Definition _arun `{R : Runtime} (H : Host) (url method : string) (chain : option string)
  : M string :=
  let cli_args := [url; "--method"; method] in
  let cli_args :=
    match chain with
    | Some c => if truthy c then cli_args ++ ["--chain"; c] else cli_args
    | None => cli_args
    end in
  dumped (async_run_cli H "fetch" (Some cli_args) DEFAULT_TIMEOUT).
End BoltzPayFetchTool.

Module BoltzPayCheckTool.
Definition _run `{R : Runtime} (H : Host) (url : string) : M string :=
  dumped (run_cli H "check" (Some [url]) DEFAULT_TIMEOUT).
Definition _arun `{R : Runtime} (H : Host) (url : string) : M string :=
  dumped (async_run_cli H "check" (Some [url]) DEFAULT_TIMEOUT).
End BoltzPayCheckTool.

Module BoltzPayQuoteTool.
Definition _run `{R : Runtime} (H : Host) (url : string) : M string :=
  dumped (run_cli H "quote" (Some [url]) DEFAULT_TIMEOUT).
Definition _arun `{R : Runtime} (H : Host) (url : string) : M string :=
  dumped (async_run_cli H "quote" (Some [url]) DEFAULT_TIMEOUT).
End BoltzPayQuoteTool.

Module BoltzPayDiscoverTool.
Definition _run `{R : Runtime} (H : Host) (category : option string) : M string :=
  let cli_args : list string := [] in
  let cli_args :=
    match category with
    | Some c => if truthy c then cli_args ++ ["--category"; c] else cli_args
    | None => cli_args
    end in
  dumped (run_cli H "discover" (Some cli_args) DEFAULT_TIMEOUT).
Definition _arun `{R : Runtime} (H : Host) (category : option string) : M string :=
  let cli_args : list string := [] in
  let cli_args :=
    match category with
    | Some c => if truthy c then cli_args ++ ["--category"; c] else cli_args
    | None => cli_args
    end in
  dumped (async_run_cli H "discover" (Some cli_args) DEFAULT_TIMEOUT).
End BoltzPayDiscoverTool.

(** The three tools without parameters call the bridge with the command
    alone, so that [args] takes its default [None]. *)
Module BoltzPayBudgetTool.
Definition _run `{R : Runtime} (H : Host) : M string :=
  dumped (run_cli H "budget" None DEFAULT_TIMEOUT).
Definition _arun `{R : Runtime} (H : Host) : M string :=
  dumped (async_run_cli H "budget" None DEFAULT_TIMEOUT).
End BoltzPayBudgetTool.

Module BoltzPayHistoryTool.
Definition _run `{R : Runtime} (H : Host) : M string :=
  dumped (run_cli H "history" None DEFAULT_TIMEOUT).
Definition _arun `{R : Runtime} (H : Host) : M string :=
  dumped (async_run_cli H "history" None DEFAULT_TIMEOUT).
End BoltzPayHistoryTool.

Module BoltzPayWalletTool.
Definition _run `{R : Runtime} (H : Host) : M string :=
  dumped (run_cli H "wallet" None DEFAULT_TIMEOUT).
Definition _arun `{R : Runtime} (H : Host) : M string :=
  dumped (async_run_cli H "wallet" None DEFAULT_TIMEOUT).
End BoltzPayWalletTool.

End tools.
End Langchain.

(* ================================================================== *)
(** * Package [boltzpay_crewai] *)
(* ================================================================== *)

Module Crewai.

(** ** [errors.py] *)
Module errors.

(** [BoltzPayBridgeError.__init__(self, code, message)], which the two
    subclasses reach through [super().__init__]: the attributes are set and
    [f"{code}: {message}"] goes to [Exception.__init__]. *)
Definition init `{R : Runtime} (c : error_class) (code message : json) : bridge_error :=
  {| cls := c; code := code; message := message;
     exc_arg := JStr (py_str code +++ ": " +++ py_str message) |}.

(** [BoltzPayBridgeError(code, message)] *)
Definition BoltzPayBridgeError `{R : Runtime} (code message : json) : bridge_error :=
  init ClsBridgeError code message.

Definition NODE_NOT_FOUND_MESSAGE : string :=
  "Node.js/npx not found. Install Node.js 20+ from https://nodejs.org "
  +++ "or use the MCP server: npx @boltzpay/mcp".

(** [BoltzPayNodeNotFoundError()] *)
Definition BoltzPayNodeNotFoundError `{R : Runtime} : bridge_error :=
  init ClsNodeNotFoundError (JStr "NODE_NOT_FOUND") (JStr NODE_NOT_FOUND_MESSAGE).

(** [BoltzPayTimeoutError(timeout)] *)
Definition BoltzPayTimeoutError `{R : Runtime} (timeout : Z) : bridge_error :=
  init ClsTimeoutError (JStr "TIMEOUT")
    (JStr ("CLI command timed out after " +++ str_of_int timeout +++ "s")).

End errors.

(** ** [bridge.py] *)
Module bridge.
Import errors.

(** [_find_npx()] *)
Definition _find_npx `{R : Runtime} (H : Host) : M string :=
  match shutil_which H "npx" with
  | None => raise (Bridge BoltzPayNodeNotFoundError)
  | Some path => ret path
  end.

(** The statements that [run_cli] and [async_run_cli] share, word for
    word, once the process has completed and its output is text: with a
    non-zero exit code look for the error envelope, otherwise parse the
    standard output. *)
Definition parse_outcome `{R : Runtime} (stdout stderr : string) (returncode : Z)
  : M json :=
  (if negb (returncode =? 0) then
     try_except
       (err <- loads stdout ;;
        error <- getitem err "error" ;;
        code <- getitem error "code" ;;
        error <- getitem err "error" ;;
        message <- getitem error "message" ;;
        raise (Bridge (BoltzPayBridgeError code message)))
       (fun e =>
          match e with
          | JSONDecodeError | KeyError | TypeError =>
              Some (raise (Bridge (BoltzPayBridgeError (JStr "CLI_ERROR")
                      (JStr (str_or stderr "Unknown error")))))
          | _ => None
          end)
   else ret tt) ;;
  try_except (loads stdout)
    (fun e =>
       match e with
       | JSONDecodeError =>
           Some (raise (Bridge (BoltzPayBridgeError (JStr "PARSE_ERROR")
                   (JStr ("Invalid JSON output: " +++ str_take 200 stdout)))))
       | _ => None
       end).

(** [run_cli(command, args, timeout=timeout)] *)
Definition run_cli `{R : Runtime} (H : Host) (command : string)
    (args : option (list string)) (timeout : Z) : M json :=
  npx <- _find_npx H ;;
  let cmd := [npx; "-y"; "@boltzpay/cli"; command] ++ list_or_empty args ++ ["--json"] in
  result <- try_except (subprocess_run H cmd timeout)
              (fun e =>
                 match e with
                 | FileNotFoundError => Some (raise (Bridge BoltzPayNodeNotFoundError))
                 | TimeoutExpired => Some (raise (Bridge (BoltzPayTimeoutError timeout)))
                 | _ => None
                 end) ;;
  parse_outcome (stdout result) (stderr result) (returncode result).

(** [async_run_cli(command, args, timeout=timeout)] *)
Definition async_run_cli `{R : Runtime} (H : Host) (command : string)
    (args : option (list string)) (timeout : Z) : M json :=
  npx <- _find_npx H ;;
  let cmd := [npx; "-y"; "@boltzpay/cli"; command] ++ list_or_empty args ++ ["--json"] in
  proc <- try_except (create_subprocess_exec H cmd)
            (fun e =>
               match e with
               | FileNotFoundError => Some (raise (Bridge BoltzPayNodeNotFoundError))
               | _ => None
               end) ;;
  done <- try_except (wait_for_communicate proc timeout)
            (fun e =>
               match e with
               | AsyncTimeoutError =>
                   Some (emit ProcKill ;;
                         emit ProcWait ;;
                         raise (Bridge (BoltzPayTimeoutError timeout)))
               | _ => None
               end) ;;
  (* stdout_bytes.decode() if stdout_bytes else the empty string *)
  let stdout := if truthy (stdout done) then decode (stdout done) else EmptyString in
  let stderr := if truthy (stderr done) then decode (stderr done) else EmptyString in
  parse_outcome stdout stderr (returncode done).

End bridge.

(** ** [tools.py] *)
Module tools.
Import bridge.

(** [_safe_run(command, args)] *)
Definition _safe_run `{R : Runtime} (H : Host) (command : string)
    (args : option (list string)) : M string :=
  try_except
    (result <- run_cli H command args DEFAULT_TIMEOUT ;;
     ret (json_dumps result 2))
    (fun e =>
       match e with
       | Bridge exc =>
           Some (ret ("Error (" +++ py_str (code exc) +++ "): " +++ py_str (message exc)))
       | _ => None
       end).

Module BoltzPayFetchTool.
Definition _run `{R : Runtime} (H : Host) (url method : string) (chain : option string)
  : M string :=
  let args := [url; "--method"; method] in
  let args :=
    match chain with
    | Some c => if truthy c then args ++ ["--chain"; c] else args
    | None => args
    end in
  _safe_run H "fetch" (Some args).
End BoltzPayFetchTool.

Module BoltzPayCheckTool.
Definition _run `{R : Runtime} (H : Host) (url : string) : M string :=
  _safe_run H "check" (Some [url]).
End BoltzPayCheckTool.

Module BoltzPayQuoteTool.
Definition _run `{R : Runtime} (H : Host) (url : string) : M string :=
  _safe_run H "quote" (Some [url]).
End BoltzPayQuoteTool.

Module BoltzPayDiscoverTool.
Definition _run `{R : Runtime} (H : Host) (category : option string) : M string :=
  let args : list string := [] in
  let args :=
    match category with
    | Some c => if truthy c then args ++ ["--category"; c] else args
    | None => args
    end in
  _safe_run H "discover" (Some args).
End BoltzPayDiscoverTool.

Module BoltzPayBudgetTool.
Definition _run `{R : Runtime} (H : Host) : M string := _safe_run H "budget" (Some []).
End BoltzPayBudgetTool.

Module BoltzPayHistoryTool.
Definition _run `{R : Runtime} (H : Host) : M string := _safe_run H "history" (Some []).
End BoltzPayHistoryTool.

Module BoltzPayWalletTool.
Definition _run `{R : Runtime} (H : Host) : M string := _safe_run H "wallet" (Some []).
End BoltzPayWalletTool.

End tools.
End Crewai.

(* ================================================================== *)
(** * A reference runtime *)
(* ================================================================== *)

(** An executable [Runtime], to run the bridge on concrete process
    outcomes: a reader of JSON text ([loads]), a printer with the layout
    of [json.dumps(v, indent=n)] ([dumps]) and a printer with the layout of
    [repr] ([py_repr]).  The reader accepts the grammar [json.loads]
    accepts, in two passes: the text is cut into tokens by an automaton
    that reads one character at a time, and the tokens are parsed by
    recursive descent.  A [\uXXXX] escape above U+00FF has no character
    in the model and is refused; a float is printed as its lexeme. *)
Module Reference.

Inductive token : Type :=
| TLBrace | TRBrace | TLBracket | TRBracket | TComma | TColon
| TString (s : string)
| TAtom (lexeme : string).      (* a number or one of the literal names *)

Definition code_of (c : ascii) : N := N_of_ascii c.

(** The white space of JSON: space, TAB, LF, CR. *)
Definition json_space (c : ascii) : bool :=
  let n := code_of c in ((n =? 32) || (n =? 9) || (n =? 10) || (n =? 13))%N.

Definition is_digit (c : ascii) : bool :=
  let n := code_of c in ((48 <=? n) && (n <=? 57))%N.

(** The characters of numbers and of literal names. *)
Definition atom_char (c : ascii) : bool :=
  let n := code_of c in
  (is_digit c || (65 <=? n) && (n <=? 90) || (97 <=? n) && (n <=? 122)
   || (n =? 43) || (n =? 45) || (n =? 46))%N.

Definition punctuation (c : ascii) : option token :=
  match code_of c with
  | 123%N => Some TLBrace
  | 125%N => Some TRBrace
  | 91%N => Some TLBracket
  | 93%N => Some TRBracket
  | 44%N => Some TComma
  | 58%N => Some TColon
  | _ => None
  end.

(** The character a one-letter escape stands for. *)
Definition escaped (c : ascii) : option ascii :=
  match code_of c with
  | 34%N => Some (ascii_of_N 34)    (* quotation mark *)
  | 92%N => Some (ascii_of_N 92)    (* backslash *)
  | 47%N => Some (ascii_of_N 47)    (* slash *)
  | 98%N => Some (ascii_of_N 8)     (* b: backspace *)
  | 102%N => Some (ascii_of_N 12)   (* f: form feed *)
  | 110%N => Some (ascii_of_N 10)   (* n: line feed *)
  | 114%N => Some (ascii_of_N 13)   (* r: carriage return *)
  | 116%N => Some (ascii_of_N 9)    (* t: tab *)
  | _ => None
  end.

Definition hex_value (c : ascii) : option N :=
  let n := code_of c in
  if is_digit c then Some (n - 48)%N
  else if ((65 <=? n) && (n <=? 70))%N then Some (n - 55)%N
  else if ((97 <=? n) && (n <=? 102))%N then Some (n - 87)%N
  else None.

Definition snoc (s : string) (c : ascii) : string := s +++ String c EmptyString.

(** Where the tokenizer is: between tokens, inside a number or name,
    inside a string, after a backslash, or inside the four digits of a
    [\u] escape. *)
Inductive mode : Type :=
| Idle
| InAtom (acc : string)
| InString (acc : string)
| InEscape (acc : string)
| InUnicode (acc : string) (seen : nat) (value : N).

(** The tokens read so far, newest first, and the mode. *)
Definition lexer : Type := (list token * mode)%type.

Definition step_idle (toks : list token) (c : ascii) : option lexer :=
  if json_space c then Some (toks, Idle)
  else match punctuation c with
       | Some t => Some (t :: toks, Idle)
       | None =>
           if (code_of c =? 34)%N then Some (toks, InString EmptyString)
           else if atom_char c then Some (toks, InAtom (String c EmptyString))
           else None
       end.

Definition step (st : lexer) (c : ascii) : option lexer :=
  let (toks, m) := st in
  match m with
  | Idle => step_idle toks c
  | InAtom acc =>
      if atom_char c then Some (toks, InAtom (snoc acc c))
      else step_idle (TAtom acc :: toks) c
  | InString acc =>
      if (code_of c =? 34)%N then Some (TString acc :: toks, Idle)
      else if (code_of c =? 92)%N then Some (toks, InEscape acc)
      else if (code_of c <? 32)%N then None
      else Some (toks, InString (snoc acc c))
  | InEscape acc =>
      match escaped c with
      | Some ch => Some (toks, InString (snoc acc ch))
      | None => if (code_of c =? 117)%N then Some (toks, InUnicode acc 0 0%N) else None
      end
  | InUnicode acc seen value =>
      match hex_value c with
      | Some d =>
          let value' := (16 * value + d)%N in
          if Nat.eqb seen 3
          then if (value' <? 256)%N
               then Some (toks, InString (snoc acc (ascii_of_N value')))
               else None
          else Some (toks, InUnicode acc (S seen) value')
      | None => None
      end
  end.

Fixpoint run (st : lexer) (s : string) : option lexer :=
  match s with
  | EmptyString => Some st
  | String c r =>
      match step st c with
      | Some st' => run st' r
      | None => None
      end
  end.

Definition finish (st : lexer) : option (list token) :=
  let (toks, m) := st in
  match m with
  | Idle => Some (rev toks)
  | InAtom acc => Some (rev (TAtom acc :: toks))
  | _ => None
  end.

Definition tokens (s : string) : option (list token) :=
  match run ([], Idle) s with
  | Some st => finish st
  | None => None
  end.

(** *** Numbers and names *)

Fixpoint span_digits (l : list ascii) : list ascii * list ascii :=
  match l with
  | c :: r => if is_digit c then let (ds, rest) := span_digits r in (c :: ds, rest)
              else ([], l)
  | [] => ([], [])
  end.

Definition digits_value (ds : list ascii) : Z :=
  fold_left (fun acc c => 10 * acc + Z.of_N (code_of c - 48)) ds 0.

(** A number: an optional minus sign; an integer part, which is the digit
    zero alone or digits that do not start with zero; optionally a point
    and digits; optionally the letter e, a sign and digits.  An [int]
    without fraction and exponent, a [float] otherwise. *)
Definition number (lexeme : string) : option json :=
  let l := list_ascii_of_string lexeme in
  let (negative, l) :=
    match l with
    | c :: r => if (code_of c =? 45)%N then (true, r) else (false, l)
    | [] => (false, l)
    end in
  let (int_digits, l) := span_digits l in
  let int_ok :=
    match int_digits with
    | [] => false
    | [_] => true
    | c :: _ => negb (code_of c =? 48)%N
    end in
  let (frac, l) :=
    match l with
    | c :: r =>
        if (code_of c =? 46)%N
        then let (ds, rest) := span_digits r in
             match ds with [] => (None, l) | _ => (Some ds, rest) end
        else (None, l)
    | [] => (None, l)
    end in
  let (expo, l) :=
    match l with
    | c :: r =>
        if ((code_of c =? 101) || (code_of c =? 69))%N
        then
          let r' :=
            match r with
            | s :: r'' => if ((code_of s =? 43) || (code_of s =? 45))%N then r'' else r
            | [] => r
            end in
          let (ds, rest) := span_digits r' in
          match ds with [] => (None, l) | _ => (Some ds, rest) end
        else (None, l)
    | [] => (None, l)
    end in
  match int_ok, l with
  | true, [] =>
      match frac, expo with
      | None, None =>
          let v := digits_value int_digits in
          Some (JInt (if negative then - v else v))
      | _, _ => Some (JFloat lexeme)
      end
  | _, _ => None
  end.

Definition atom (lexeme : string) : option json :=
  if String.eqb lexeme "null" then Some JNull
  else if String.eqb lexeme "true" then Some (JBool true)
  else if String.eqb lexeme "false" then Some (JBool false)
  else if String.eqb lexeme "NaN" || String.eqb lexeme "Infinity"
          || String.eqb lexeme "-Infinity"
  then Some (JFloat lexeme)
  else number lexeme.

(** *** Parsing the tokens *)

(** [d[k] = v]: a key already present keeps its place and takes the new
    value. *)
Fixpoint dict_set (k : string) (v : json) (items : list (string * json))
  : list (string * json) :=
  match items with
  | [] => [(k, v)]
  | (k', v') :: rest =>
      if String.eqb k k' then (k', v) :: rest else (k', v') :: dict_set k v rest
  end.

Fixpoint parse_value (fuel : nat) (ts : list token) : option (json * list token) :=
  match fuel with
  | O => None
  | S fuel' =>
      match ts with
      | TString s :: r => Some (JStr s, r)
      | TAtom a :: r =>
          match atom a with
          | Some v => Some (v, r)
          | None => None
          end
      | TLBracket :: TRBracket :: r => Some (JList [], r)
      | TLBracket :: r => parse_items fuel' r []
      | TLBrace :: TRBrace :: r => Some (JDict [], r)
      | TLBrace :: r => parse_members fuel' r []
      | _ => None
      end
  end
with parse_items (fuel : nat) (ts : list token) (acc : list json)
  : option (json * list token) :=
  match fuel with
  | O => None
  | S fuel' =>
      match parse_value fuel' ts with
      | Some (v, TComma :: r) => parse_items fuel' r (acc ++ [v])
      | Some (v, TRBracket :: r) => Some (JList (acc ++ [v]), r)
      | _ => None
      end
  end
with parse_members (fuel : nat) (ts : list token) (acc : list (string * json))
  : option (json * list token) :=
  match fuel with
  | O => None
  | S fuel' =>
      match ts with
      | TString k :: TColon :: r =>
          match parse_value fuel' r with
          | Some (v, TComma :: r') => parse_members fuel' r' (dict_set k v acc)
          | Some (v, TRBrace :: r') => Some (JDict (dict_set k v acc), r')
          | _ => None
          end
      | _ => None
      end
  end.

(** [json.loads]: one value and nothing after it. *)
Definition loads (s : string) : option json :=
  match tokens s with
  | Some ts =>
      match parse_value (S (length ts)) ts with
      | Some (v, []) => Some v
      | _ => None
      end
  | None => None
  end.

(** *** Printing *)

Definition char (n : N) : string := String (ascii_of_N n) EmptyString.

Definition hex_digit (n : N) : string :=
  char (if (n <? 10)%N then n + 48 else n + 87)%N.

Definition hex2 (n : N) : string := hex_digit (n / 16) +++ hex_digit (n mod 16).

Fixpoint spaces (n : nat) : string :=
  match n with
  | O => EmptyString
  | S n' => String (ascii_of_N 32) (spaces n')
  end.

Definition backslash : string := char 92.

(** One character inside a JSON string, as [json.dumps] writes it with
    [ensure_ascii]: printable ASCII as it is, the rest escaped. *)
Definition json_char (c : ascii) : string :=
  let n := code_of c in
  match n with
  | 34%N => backslash +++ char 34
  | 92%N => backslash +++ backslash
  | 10%N => backslash +++ "n"
  | 13%N => backslash +++ "r"
  | 9%N => backslash +++ "t"
  | 8%N => backslash +++ "b"
  | 12%N => backslash +++ "f"
  | _ => if ((32 <=? n) && (n <=? 126))%N then String c EmptyString
         else backslash +++ "u00" +++ hex2 n
  end.

Fixpoint concat_map (f : ascii -> string) (s : string) : string :=
  match s with
  | EmptyString => EmptyString
  | String c r => f c +++ concat_map f r
  end.

Definition json_string (s : string) : string :=
  char 34 +++ concat_map json_char s +++ char 34.

(** [json.dumps(v, indent=indent)] below [level] enclosing containers. *)
Fixpoint dumps_at (indent level : nat) (v : json) : string :=
  let newline (k : nat) := char 10 +++ spaces (indent * k) in
  match v with
  | JNull => "null"
  | JBool true => "true"
  | JBool false => "false"
  | JInt n => str_of_int n
  | JFloat lexeme => lexeme
  | JStr s => json_string s
  | JList [] => "[]"
  | JList (x :: rest) =>
      "[" +++ newline (S level) +++ dumps_at indent (S level) x
      +++ (fix more (l : list json) : string :=
             match l with
             | [] => EmptyString
             | y :: l' => "," +++ newline (S level) +++ dumps_at indent (S level) y
                          +++ more l'
             end) rest
      +++ newline level +++ "]"
  | JDict [] => "{}"
  | JDict ((k, x) :: rest) =>
      "{" +++ newline (S level) +++ json_string k +++ ": " +++ dumps_at indent (S level) x
      +++ (fix more (l : list (string * json)) : string :=
             match l with
             | [] => EmptyString
             | (k', y) :: l' =>
                 "," +++ newline (S level) +++ json_string k' +++ ": "
                 +++ dumps_at indent (S level) y +++ more l'
             end) rest
      +++ newline level +++ "}"
  end.

Definition dumps (v : json) (indent : Z) : string := dumps_at (Z.to_nat indent) 0 v.

(** One character inside the [repr] of a string quoted with [quote]. *)
Definition repr_char (quote : N) (c : ascii) : string :=
  let n := code_of c in
  if (n =? 92)%N then backslash +++ backslash
  else if (n =? quote)%N then backslash +++ char quote
  else if (n =? 10)%N then backslash +++ "n"
  else if (n =? 13)%N then backslash +++ "r"
  else if (n =? 9)%N then backslash +++ "t"
  else if ((n <? 32) || (127 <=? n) && (n <=? 160) || (n =? 173))%N
  then backslash +++ "x" +++ hex2 n
  else String c EmptyString.

(** [repr(s)]: single quotes, unless the string has a single quote and no
    double quote. *)
Definition repr_string (s : string) : string :=
  let quote := if str_in (char 39) s && negb (str_in (char 34) s) then 34%N else 39%N in
  char quote +++ concat_map (repr_char quote) s +++ char quote.

(** [repr(v)] *)
Fixpoint py_repr (v : json) : string :=
  match v with
  | JNull => "None"
  | JBool true => "True"
  | JBool false => "False"
  | JInt n => str_of_int n
  | JFloat lexeme => lexeme
  | JStr s => repr_string s
  | JList [] => "[]"
  | JList (x :: rest) =>
      "[" +++ py_repr x
      +++ (fix more (l : list json) : string :=
             match l with
             | [] => EmptyString
             | y :: l' => ", " +++ py_repr y +++ more l'
             end) rest
      +++ "]"
  | JDict [] => "{}"
  | JDict ((k, x) :: rest) =>
      "{" +++ repr_string k +++ ": " +++ py_repr x
      +++ (fix more (l : list (string * json)) : string :=
             match l with
             | [] => EmptyString
             | (k', y) :: l' => ", " +++ repr_string k' +++ ": " +++ py_repr y +++ more l'
             end) rest
      +++ "}"
  end.

Definition runtime : Runtime :=
  {| json_loads := loads; json_dumps := dumps; repr := py_repr |}.

(** A machine where [npx] is found at [npx], or not at all, and where every
    command line starts the child [c]. *)
Definition host (npx : option string) (c : child) : Host :=
  {| shutil_which := fun name => if String.eqb name "npx" then npx else None;
     spawn := fun _ => c |}.

(** A child that exits by itself whatever time it is given. *)
Definition exits (returncode : Z) (stdout stderr : string) : child :=
  Started (fun _ => Some {| returncode := returncode; stdout := stdout; stderr := stderr |}).

(** A child that is still running whatever time it is given. *)
Definition hangs : child := Started (fun _ => None).

(** [s] between double quotes. *)
Definition quoted (s : string) : string := char 34 +++ s +++ char 34.

End Reference.

(* ================================================================== *)
(** * Vocabulary of the properties *)
(* ================================================================== *)

(** The two packages and the two ways of calling the bridge. *)
Inductive package : Type := LangchainPkg | CrewaiPkg.
Inductive convention : Type := Sync | Async.

(** The four bridge functions. *)
Definition bridge_call `{R : Runtime} (pkg : package) (cv : convention)
  : Host -> string -> option (list string) -> Z -> M json :=
  match pkg, cv with
  | LangchainPkg, Sync => Langchain.bridge.run_cli
  | LangchainPkg, Async => Langchain.bridge.async_run_cli
  | CrewaiPkg, Sync => Crewai.bridge.run_cli
  | CrewaiPkg, Async => Crewai.bridge.async_run_cli
  end.

(** The command line of a bridge call, given where the launcher is. *)
Definition command_line (npx command : string) (args : option (list string))
  : list string :=
  [npx; "-y"; "@boltzpay/cli"; command] ++ list_or_empty args ++ ["--json"].

(** What a machine makes of a bridge call: the launcher is not on the
    search path, the launcher is gone when the process is spawned, the
    child outlives the timeout, or the child completes. *)
Inductive course : Type :=
| LauncherMissing
| SpawnFails
| TimesOut
| Completes (done : CompletedProcess).

Definition course_of (H : Host) (command : string) (args : option (list string))
    (timeout : Z) : course :=
  match shutil_which H "npx" with
  | None => LauncherMissing
  | Some npx =>
      match spawn H (command_line npx command args) with
      | NoSuchFile => SpawnFails
      | Started finish =>
          match finish timeout with
          | None => TimesOut
          | Some done => Completes done
          end
      end
  end.

(** The command lines a computation has spawned, in order. *)
Definition spawned (t : list event) : list (list string) :=
  flat_map (fun ev =>
              match ev with
              | SubprocessRun cmd _ => [cmd]
              | CreateSubprocessExec cmd => [cmd]
              | _ => []
              end) t.

(** A use of one of the seven tools, with its validated inputs. *)
Inductive tool_call : Type :=
| Fetch (url method : string) (chain : option string)
| Check (url : string)
| Quote (url : string)
| Discover (category : option string)
| Budget
| History
| Wallet.

(** The CLI command behind a tool. *)
Definition command_of (c : tool_call) : string :=
  match c with
  | Fetch _ _ _ => "fetch"
  | Check _ => "check"
  | Quote _ => "quote"
  | Discover _ => "discover"
  | Budget => "budget"
  | History => "history"
  | Wallet => "wallet"
  end.

(** The strings a caller hands to a tool. *)
Definition inputs_of (c : tool_call) : list string :=
  match c with
  | Fetch url method chain =>
      url :: method :: match chain with Some x => [x] | None => [] end
  | Check url | Quote url => [url]
  | Discover category => match category with Some x => [x] | None => [] end
  | Budget | History | Wallet => []
  end.

(** The entry points of the tools: [_run] and [_arun] of the LangChain
    tools, [_run] of the CrewAI tools. *)
Inductive entry_point : Type := LangchainRun | LangchainArun | CrewaiRun.

Definition invoke `{R : Runtime} (e : entry_point) (H : Host) (c : tool_call) : M string :=
  match e, c with
  | LangchainRun, Fetch url method chain =>
      Langchain.tools.BoltzPayFetchTool._run H url method chain
  | LangchainRun, Check url => Langchain.tools.BoltzPayCheckTool._run H url
  | LangchainRun, Quote url => Langchain.tools.BoltzPayQuoteTool._run H url
  | LangchainRun, Discover category =>
      Langchain.tools.BoltzPayDiscoverTool._run H category
  | LangchainRun, Budget => Langchain.tools.BoltzPayBudgetTool._run H
  | LangchainRun, History => Langchain.tools.BoltzPayHistoryTool._run H
  | LangchainRun, Wallet => Langchain.tools.BoltzPayWalletTool._run H
  | LangchainArun, Fetch url method chain =>
      Langchain.tools.BoltzPayFetchTool._arun H url method chain
  | LangchainArun, Check url => Langchain.tools.BoltzPayCheckTool._arun H url
  | LangchainArun, Quote url => Langchain.tools.BoltzPayQuoteTool._arun H url
  | LangchainArun, Discover category =>
      Langchain.tools.BoltzPayDiscoverTool._arun H category
  | LangchainArun, Budget => Langchain.tools.BoltzPayBudgetTool._arun H
  | LangchainArun, History => Langchain.tools.BoltzPayHistoryTool._arun H
  | LangchainArun, Wallet => Langchain.tools.BoltzPayWalletTool._arun H
  | CrewaiRun, Fetch url method chain =>
      Crewai.tools.BoltzPayFetchTool._run H url method chain
  | CrewaiRun, Check url => Crewai.tools.BoltzPayCheckTool._run H url
  | CrewaiRun, Quote url => Crewai.tools.BoltzPayQuoteTool._run H url
  | CrewaiRun, Discover category => Crewai.tools.BoltzPayDiscoverTool._run H category
  | CrewaiRun, Budget => Crewai.tools.BoltzPayBudgetTool._run H
  | CrewaiRun, History => Crewai.tools.BoltzPayHistoryTool._run H
  | CrewaiRun, Wallet => Crewai.tools.BoltzPayWalletTool._run H
  end.

(** The error envelope
    [{success: false, error: {code: AUTH_MISSING, message: Coinbase credentials not configured}}]
    as an object. *)
Definition AUTH_MISSING_ENVELOPE : json :=
  JDict [("success", JBool false);
         ("error", JDict [("code", JStr "AUTH_MISSING");
                          ("message", JStr "Coinbase credentials not configured")])].

(** The same envelope as the text the CLI prints. *)
Definition AUTH_MISSING_TEXT : string :=
  "{" +++ Reference.quoted "success" +++ ": false, "
  +++ Reference.quoted "error" +++ ": {"
  +++ Reference.quoted "code" +++ ": " +++ Reference.quoted "AUTH_MISSING" +++ ", "
  +++ Reference.quoted "message" +++ ": "
  +++ Reference.quoted "Coinbase credentials not configured" +++ "}}".

(** A success envelope
    [{success: true, data: {isPaid: true}, payment: null, metadata: {}}]
    as an object, and as the text the CLI prints. *)
Definition SUCCESS_ENVELOPE : json :=
  JDict [("success", JBool true);
         ("data", JDict [("isPaid", JBool true)]);
         ("payment", JNull);
         ("metadata", JDict [])].

Definition SUCCESS_TEXT : string :=
  "{" +++ Reference.quoted "success" +++ ": true, "
  +++ Reference.quoted "data" +++ ": {" +++ Reference.quoted "isPaid" +++ ": true}, "
  +++ Reference.quoted "payment" +++ ": null, "
  +++ Reference.quoted "metadata" +++ ": {}}".

(** Every character of [s] is white space for [str.strip]. *)
Fixpoint all_space (s : string) : bool :=
  match s with
  | EmptyString => true
  | String c r => isspace c && all_space r
  end.

(** The parsing of a completed process in each package. *)
Definition parse_of `{R : Runtime} (pkg : package) : string -> string -> Z -> M json :=
  match pkg with
  | LangchainPkg => Langchain.bridge.parse_outcome
  | CrewaiPkg => Crewai.bridge.parse_outcome
  end.

(** [BoltzPayNodeNotFoundError()] of each package. *)
Definition node_not_found `{R : Runtime} (pkg : package) : bridge_error :=
  match pkg with
  | LangchainPkg => Langchain.errors.BoltzPayNodeNotFoundError
  | CrewaiPkg => Crewai.errors.BoltzPayNodeNotFoundError
  end.

(** [BoltzPayTimeoutError(timeout)] of each package. *)
Definition timed_out `{R : Runtime} (pkg : package) (timeout : Z) : bridge_error :=
  match pkg with
  | LangchainPkg => Langchain.errors.BoltzPayTimeoutError timeout
  | CrewaiPkg => Crewai.errors.BoltzPayTimeoutError timeout
  end.

(** [BoltzPayBridgeError(code, message)] of each package. *)
Definition bridge_error_of `{R : Runtime} (pkg : package) (code message : json)
  : bridge_error :=
  match pkg with
  | LangchainPkg => Langchain.errors.BoltzPayBridgeError code message
  | CrewaiPkg => Crewai.errors.BoltzPayBridgeError code message
  end.

(** The test of the LangChain bridge for an error envelope:
    [isinstance(data, dict) and data.get("success") is False]. *)
Definition asserts_failure (v : json) : bool :=
  match v with
  | JDict items => is_False (dict_get "success" items JNull)
  | _ => false
  end.

(** A success-shaped envelope: an object whose [success] is [true]. *)
Definition success_shaped (v : json) : Prop :=
  exists items, v = JDict items /\ dict_lookup "success" items = Some (JBool true).

(** The flag and value an optional input adds to the argument list: both
    when the input is a non-empty string, nothing otherwise. *)
Definition optional_flag (flag : string) (value : option string) : list string :=
  match value with
  | Some v => if truthy v then [flag; v] else []
  | None => []
  end.

(** The argument list of each operation, after the mapping rules of the
    specification; an optional input counts as provided when it is a
    non-empty string.  That the tools build this list is
    [tool_arguments_documented]. *)
Definition cli_args (c : tool_call) : list string :=
  match c with
  | Fetch url method chain => [url; "--method"; method] ++ optional_flag "--chain" chain
  | Check url => [url]
  | Quote url => [url]
  | Discover category => optional_flag "--category" category
  | Budget | History | Wallet => []
  end.

(** The bridge function behind each entry point. *)
Definition bridge_of (e : entry_point) : package * convention :=
  match e with
  | LangchainRun => (LangchainPkg, Sync)
  | LangchainArun => (LangchainPkg, Async)
  | CrewaiRun => (CrewaiPkg, Sync)
  end.

(** A machine with the launcher at [/usr/local/bin/npx]. *)
Definition NPX : string := "/usr/local/bin/npx".
Definition machine (c : child) : Host := Reference.host (Some NPX) c.

(** A machine without the launcher. *)
Definition bare_machine : Host := Reference.host None NoSuchFile.

(** The pair [err["error"]["code"]], [err["error"]["message"]] that the
    CrewAI bridge reads from a parsed output, when both subscriptions
    succeed. *)
Definition error_parts (v : json) : option (json * json) :=
  match v with
  | JDict items =>
      match dict_lookup "error" items with
      | Some (JDict error) =>
          match dict_lookup "code" error, dict_lookup "message" error with
          | Some c, Some m => Some (c, m)
          | _, _ => None
          end
      | _ => None
      end
  | _ => None
  end.

(** The seven tool classes of [tools.py]. *)
Inductive tool : Type :=
| FetchTool | CheckTool | QuoteTool | DiscoverTool
| BudgetTool | HistoryTool | WalletTool.

(** The class attribute [name] of each tool class, in each package. *)
Definition name_of (pkg : package) (t : tool) : string :=
  match pkg, t with
  | LangchainPkg, FetchTool => "boltzpay_fetch"
  | LangchainPkg, CheckTool => "boltzpay_check"
  | LangchainPkg, QuoteTool => "boltzpay_quote"
  | LangchainPkg, DiscoverTool => "boltzpay_discover"
  | LangchainPkg, BudgetTool => "boltzpay_budget"
  | LangchainPkg, HistoryTool => "boltzpay_history"
  | LangchainPkg, WalletTool => "boltzpay_wallet"
  | CrewaiPkg, FetchTool => "boltzpay_fetch"
  | CrewaiPkg, CheckTool => "boltzpay_check"
  | CrewaiPkg, QuoteTool => "boltzpay_quote"
  | CrewaiPkg, DiscoverTool => "boltzpay_discover"
  | CrewaiPkg, BudgetTool => "boltzpay_budget"
  | CrewaiPkg, HistoryTool => "boltzpay_history"
  | CrewaiPkg, WalletTool => "boltzpay_wallet"
  end.

(** The tool class a use of a tool is a call of. *)
Definition tool_of (c : tool_call) : tool :=
  match c with
  | Fetch _ _ _ => FetchTool
  | Check _ => CheckTool
  | Quote _ => QuoteTool
  | Discover _ => DiscoverTool
  | Budget => BudgetTool
  | History => HistoryTool
  | Wallet => WalletTool
  end.

(** The text a CrewAI tool returns for a caught bridge error. *)
Definition error_text `{R : Runtime} (e : bridge_error) : string :=
  "Error (" +++ py_str (code e) +++ "): " +++ py_str (message e).

(** An error envelope whose [error] is a string,
    [{success: false, error: boom}], as the text the CLI prints. *)
Definition BOOM_TEXT : string :=
  "{" +++ Reference.quoted "success" +++ ": false, "
  +++ Reference.quoted "error" +++ ": " +++ Reference.quoted "boom" +++ "}".

(** An error envelope without details, [{success: false}], as the text the
    CLI prints. *)
Definition BARE_FAILURE_TEXT : string :=
  "{" +++ Reference.quoted "success" +++ ": false}".

(** A machine that finds the launcher on the search path and loses it
    before the process is spawned. *)
Definition racing_machine : Host := Reference.host (Some NPX) NoSuchFile.

(* ================================================================== *)
(** * Properties of the reference runtime *)
(* ================================================================== *)

(** Case analysis on the 256 characters. *)
Ltac each_char c :=
  destruct c as [[] [] [] [] [] [] [] []]; try discriminate; try reflexivity.

Module ReferenceFacts.
Import Reference.

Lemma space_between_tokens (c : ascii) (toks : list token) :
  isspace c = true ->
  step_idle toks c = if json_space c then Some (toks, Idle) else None.
Proof. each_char c. Qed.

Lemma space_not_atom (c : ascii) : isspace c = true -> atom_char c = false.
Proof. each_char c. Qed.

Lemma space_in_string (c : ascii) (toks : list token) (acc : string) :
  isspace c = true ->
  step (toks, InString acc) c
  = if (code_of c <? 32)%N then None else Some (toks, InString (snoc acc c)).
Proof. each_char c. Qed.

Lemma space_in_escape (c : ascii) (toks : list token) (acc : string) :
  isspace c = true -> step (toks, InEscape acc) c = None.
Proof. each_char c. Qed.

Lemma space_in_unicode (c : ascii) (toks : list token) acc seen value :
  isspace c = true -> step (toks, InUnicode acc seen value) c = None.
Proof. each_char c. Qed.

(** A white-space character that the tokenizer accepts leaves the tokens
    of the text read so far as they are. *)
Lemma step_space_finish (c : ascii) (st st1 : lexer) (ts : list token) :
  isspace c = true -> step st c = Some st1 -> finish st1 = Some ts ->
  finish st = Some ts.
Proof.
  intros Hc Hstep Hfin. destruct st as [toks m]. destruct m.
  - simpl in Hstep. rewrite (space_between_tokens c toks Hc) in Hstep.
    destruct (json_space c); [|discriminate].
    injection Hstep as <-. exact Hfin.
  - simpl in Hstep. rewrite (space_not_atom c Hc) in Hstep.
    rewrite (space_between_tokens c _ Hc) in Hstep.
    destruct (json_space c); [|discriminate].
    injection Hstep as <-. exact Hfin.
  - rewrite (space_in_string c toks acc Hc) in Hstep.
    destruct (code_of c <? 32)%N; [discriminate|].
    injection Hstep as <-. discriminate.
  - rewrite (space_in_escape c toks acc Hc) in Hstep. discriminate.
  - rewrite (space_in_unicode c toks acc seen value Hc) in Hstep. discriminate.
Qed.

Lemma run_trailing_space (w : string) :
  forall (st st' : lexer) (ts : list token),
    all_space w = true -> run st w = Some st' -> finish st' = Some ts ->
    finish st = Some ts.
Proof.
  induction w as [|c r IH]; intros st st' ts Hw Hrun Hfin.
  - simpl in Hrun. injection Hrun as <-. exact Hfin.
  - simpl in Hw. apply andb_prop in Hw as [Hc Hr].
    simpl in Hrun. destruct (step st c) as [st1|] eqn:Hstep; [|discriminate].
    apply (step_space_finish c st st1 ts Hc Hstep).
    exact (IH st1 st' ts Hr Hrun Hfin).
Qed.

Lemma run_app (a b : string) :
  forall st, run st (a +++ b)
             = match run st a with Some st' => run st' b | None => None end.
Proof.
  induction a as [|c r IH]; intros st; simpl.
  - reflexivity.
  - destruct (step st c); [apply IH | reflexivity].
Qed.

Lemma rstrip_split (s : string) :
  exists w, s = rstrip s +++ w /\ all_space w = true.
Proof.
  induction s as [|c r [w [Hr Hw]]].
  - exists EmptyString. split; reflexivity.
  - simpl. destruct (rstrip r) as [|c' r'] eqn:Hrs.
    + simpl in Hr. subst w. destruct (isspace c) eqn:Hc.
      * exists (String c r). split; [reflexivity|]. simpl. now rewrite Hc, Hw.
      * exists r. split; [reflexivity | exact Hw].
    + exists w. split; [|exact Hw]. simpl. simpl in Hr. now rewrite <- Hr.
Qed.

Lemma tokens_rstrip (s : string) (ts : list token) :
  tokens s = Some ts -> tokens (rstrip s) = Some ts.
Proof.
  destruct (rstrip_split s) as [w [Hs Hw]]. unfold tokens.
  rewrite Hs at 1. rewrite run_app.
  destruct (run ([], Idle) (rstrip s)) as [st|]; [|discriminate].
  destruct (run st w) as [st'|] eqn:Hrun; [|discriminate].
  intros Hfin. exact (run_trailing_space w st st' ts Hw Hrun Hfin).
Qed.

Lemma tokens_lstrip (s : string) (ts : list token) :
  tokens s = Some ts -> tokens (lstrip s) = Some ts.
Proof.
  induction s as [|c r IH]; [trivial|].
  simpl. destruct (isspace c) eqn:Hc; [|trivial].
  unfold tokens. simpl. rewrite (space_between_tokens c [] Hc).
  destruct (json_space c); [|discriminate]. exact IH.
Qed.

Lemma loads_strip : loads_ignores_margin runtime.
Proof.
  intros s v. simpl. unfold loads, strip.
  destruct (tokens s) as [ts|] eqn:Hts; [|discriminate].
  rewrite (tokens_rstrip _ ts (tokens_lstrip s ts Hts)). trivial.
Qed.

End ReferenceFacts.

(* ================================================================== *)
(** * The bridge, by the course of the process *)
(* ================================================================== *)

Section Bridge.
Context {R : Runtime}.

Lemma parse_of_pure (pkg : package) (out err : string) (rc : Z) :
  trace (parse_of pkg out err rc) = [].
Proof.
  destruct pkg; simpl.
  - unfold Langchain.bridge.parse_outcome, loads, trace. 
    destruct (json_loads (strip out)) as [data|]; simpl; [|reflexivity].
    destruct data; simpl; try reflexivity.
    destruct (is_False _); simpl; [|reflexivity].
    unfold get_method.
    destruct (dict_lookup "error" items) as [e|]; simpl.
    + destruct e; simpl; try reflexivity.
      destruct (dict_lookup "code" items0), (dict_lookup "message" items0); reflexivity.
    + reflexivity.
  - unfold Crewai.bridge.parse_outcome, loads, getitem, trace.
    destruct (negb (rc =? 0)); simpl.
    + destruct (json_loads out) as [data|]; simpl; [|reflexivity].
      destruct data; simpl; try reflexivity.
      destruct (dict_lookup "error" items) as [e|]; simpl; [|reflexivity].
      destruct e; simpl; try reflexivity.
      destruct (dict_lookup "code" items0); simpl; [|reflexivity].
      destruct (dict_lookup "message" items0); reflexivity.
    + destruct (json_loads out); reflexivity.
Qed.

Lemma truthy_or_empty (s : string) :
  (if truthy s then decode s else EmptyString) = s.
Proof. destruct s; reflexivity. Qed.

Lemma pure_pair {A : Type} (m : M A) : trace m = [] -> m = ([], outcome m).
Proof. destruct m as [t r]. simpl. now intros ->. Qed.

(** A bridge call is the course of the process followed by the parsing of
    its outcome. *)
Lemma outcome_by_course (pkg : package) (cv : convention) (H : Host)
    (command : string) (args : option (list string)) (timeout : Z) :
  outcome (bridge_call pkg cv H command args timeout)
  = match course_of H command args timeout with
    | LauncherMissing | SpawnFails => Raise (Bridge (node_not_found pkg))
    | TimesOut => Raise (Bridge (timed_out pkg timeout))
    | Completes done =>
        outcome (parse_of pkg (stdout done) (stderr done) (returncode done))
    end.
Proof.
  unfold course_of, command_line.
  destruct pkg, cv; simpl;
    unfold Langchain.bridge.run_cli, Langchain.bridge.async_run_cli,
      Crewai.bridge.run_cli, Crewai.bridge.async_run_cli,
      Langchain.bridge._find_npx, Crewai.bridge._find_npx;
    (destruct (shutil_which H "npx") as [npx|]; [|reflexivity]);
    unfold subprocess_run, create_subprocess_exec, wait_for_communicate; simpl;
    (destruct (spawn H _) as [|finish]; [reflexivity|]); simpl;
    (destruct (finish timeout) as [done|]; [|reflexivity]); simpl;
    rewrite ?truthy_or_empty; unfold decode;
    match goal with
    | |- context [Langchain.bridge.parse_outcome ?a ?b ?c] =>
        destruct (Langchain.bridge.parse_outcome a b c)
    | |- context [Crewai.bridge.parse_outcome ?a ?b ?c] =>
        destruct (Crewai.bridge.parse_outcome a b c)
    end;
    reflexivity.
Qed.

(** The calls a bridge call makes on the process API. *)
Lemma trace_by_course (pkg : package) (cv : convention) (H : Host)
    (command : string) (args : option (list string)) (timeout : Z) :
  trace (bridge_call pkg cv H command args timeout)
  = match shutil_which H "npx" with
    | None => []
    | Some npx =>
        let cmd := command_line npx command args in
        match cv with
        | Sync => [SubprocessRun cmd timeout]
        | Async =>
            CreateSubprocessExec cmd
            :: match course_of H command args timeout with
               | SpawnFails => []
               | TimesOut => [WaitForCommunicate timeout; ProcKill; ProcWait]
               | _ => [WaitForCommunicate timeout]
               end
        end
    end.
Proof.
  unfold course_of, command_line.
  destruct pkg, cv; simpl;
    unfold Langchain.bridge.run_cli, Langchain.bridge.async_run_cli,
      Crewai.bridge.run_cli, Crewai.bridge.async_run_cli,
      Langchain.bridge._find_npx, Crewai.bridge._find_npx;
    (destruct (shutil_which H "npx") as [npx|]; [|reflexivity]);
    unfold subprocess_run, create_subprocess_exec, wait_for_communicate; simpl;
    (destruct (spawn H _) as [|finish]; [reflexivity|]); simpl;
    (destruct (finish timeout) as [done|]; [|reflexivity]); simpl;
    rewrite ?truthy_or_empty; unfold decode;
    match goal with
    | |- context [Langchain.bridge.parse_outcome ?a ?b ?c] =>
        rewrite (pure_pair (Langchain.bridge.parse_outcome a b c)
                   (parse_of_pure LangchainPkg a b c))
    | |- context [Crewai.bridge.parse_outcome ?a ?b ?c] =>
        rewrite (pure_pair (Crewai.bridge.parse_outcome a b c)
                   (parse_of_pure CrewaiPkg a b c))
    end;
    reflexivity.
Qed.

End Bridge.

(* ================================================================== *)
(** * Text inside text *)
(* ================================================================== *)

Lemma prefix_append (n b : string) : prefix n (n +++ b) = true.
Proof.
  induction n as [|c n IH]; simpl; [now destruct b|].
  destruct (ascii_dec c c) as [_|Hne]; [exact IH | now elim Hne].
Qed.

Lemma str_in_eq (n h : string) :
  str_in n h
  = (prefix n h || match h with String _ r => str_in n r | EmptyString => false end)%bool.
Proof. destruct h; reflexivity. Qed.

Lemma str_in_here (n b : string) : str_in n (n +++ b) = true.
Proof. rewrite str_in_eq, prefix_append. reflexivity. Qed.

Lemma str_in_after (n a b : string) : str_in n b = true -> str_in n (a +++ b) = true.
Proof.
  intros Hb. induction a as [|c a IH]; simpl; [exact Hb|].
  rewrite IH. apply orb_true_r.
Qed.

Lemma str_in_middle (n a b : string) : str_in n (a +++ n +++ b) = true.
Proof. apply str_in_after, str_in_here. Qed.

Lemma str_in_end (n a : string) : str_in n (a +++ n) = true.
Proof.
  apply str_in_after. replace n with (n +++ EmptyString) at 2.
  - apply str_in_here.
  - induction n; simpl; congruence.
Qed.

Lemma str_in_self (n : string) : str_in n n = true.
Proof. apply (str_in_end n EmptyString). Qed.

Lemma str_or_cases (a b : string) :
  (a <> EmptyString /\ str_or a b = a) \/ (a = EmptyString /\ str_or a b = b).
Proof. destruct a; [right | left]; split; (reflexivity || discriminate). Qed.

(* ================================================================== *)
(** * The parsing of a completed process *)
(* ================================================================== *)

Section Parsing.
Context {R : Runtime}.

Lemma langchain_parse_invalid (out err : string) (rc : Z) :
  json_loads (strip out) = None ->
  Langchain.bridge.parse_outcome out err rc
  = ([], Raise (Bridge (Langchain.errors.BoltzPayBridgeError (JStr "CLI_ERROR")
           (JStr (str_or (strip err) ("CLI exited with code " +++ str_of_int rc)))))).
Proof.
  intros Hl. unfold Langchain.bridge.parse_outcome, loads. now rewrite Hl.
Qed.

Lemma langchain_parse_envelope (out err : string) (rc : Z)
    (items error : list (string * json)) (c m : json) :
  json_loads (strip out) = Some (JDict items) ->
  dict_lookup "success" items = Some (JBool false) ->
  dict_lookup "error" items = Some (JDict error) ->
  dict_lookup "code" error = Some c ->
  dict_lookup "message" error = Some m ->
  Langchain.bridge.parse_outcome out err rc
  = ([], Raise (Bridge (Langchain.errors.BoltzPayBridgeError c m))).
Proof.
  intros Hl Hs He Hc Hm. unfold Langchain.bridge.parse_outcome, loads. rewrite Hl.
  simpl. unfold dict_get. rewrite Hs. simpl. rewrite He. simpl. rewrite Hc. simpl.
  rewrite Hm. reflexivity.
Qed.

Lemma langchain_parse_passes (out err : string) (rc : Z) (v : json) :
  json_loads (strip out) = Some v -> asserts_failure v = false ->
  Langchain.bridge.parse_outcome out err rc = ([], Return v).
Proof.
  intros Hl Hv. unfold Langchain.bridge.parse_outcome, loads. rewrite Hl. simpl.
  unfold asserts_failure in Hv. rewrite Hv. reflexivity.
Qed.

Lemma langchain_parse_returns (out err : string) (rc : Z) (v : json) :
  outcome (Langchain.bridge.parse_outcome out err rc) = Return v ->
  json_loads (strip out) = Some v.
Proof.
  unfold Langchain.bridge.parse_outcome, loads.
  destruct (json_loads (strip out)) as [data|]; simpl; [|discriminate].
  destruct (match data with JDict items => _ | _ => false end).
  - unfold get_method. destruct data; simpl; try discriminate.
    destruct (dict_lookup "error" items) as [e|]; simpl.
    + destruct e; simpl; try discriminate.
      destruct (dict_lookup "code" items0), (dict_lookup "message" items0);
        discriminate.
    + discriminate.
  - simpl. now intros [= ->].
Qed.

Lemma crewai_parse_envelope (out err : string) (rc : Z)
    (items error : list (string * json)) (c m : json) :
  rc <> 0 ->
  json_loads out = Some (JDict items) ->
  dict_lookup "error" items = Some (JDict error) ->
  dict_lookup "code" error = Some c ->
  dict_lookup "message" error = Some m ->
  Crewai.bridge.parse_outcome out err rc
  = ([], Raise (Bridge (Crewai.errors.BoltzPayBridgeError c m))).
Proof.
  intros Hrc Hl He Hc Hm. unfold Crewai.bridge.parse_outcome, loads.
  apply Z.eqb_neq in Hrc. rewrite Hrc, Hl. simpl. rewrite He. simpl.
  rewrite Hc. simpl. rewrite Hm. reflexivity.
Qed.

Lemma crewai_parse_nonzero_invalid (out err : string) (rc : Z) :
  rc <> 0 -> json_loads out = None ->
  Crewai.bridge.parse_outcome out err rc
  = ([], Raise (Bridge (Crewai.errors.BoltzPayBridgeError (JStr "CLI_ERROR")
           (JStr (str_or err "Unknown error"))))).
Proof.
  intros Hrc Hl. unfold Crewai.bridge.parse_outcome, loads.
  apply Z.eqb_neq in Hrc. now rewrite Hrc, Hl.
Qed.

Lemma crewai_parse_zero (out err : string) :
  Crewai.bridge.parse_outcome out err 0
  = match json_loads out with
    | Some v => ([], Return v)
    | None =>
        ([], Raise (Bridge (Crewai.errors.BoltzPayBridgeError (JStr "PARSE_ERROR")
               (JStr ("Invalid JSON output: " +++ str_take 200 out)))))
    end.
Proof.
  unfold Crewai.bridge.parse_outcome, loads. simpl.
  destruct (json_loads out); reflexivity.
Qed.

(** With a non-zero exit code the CrewAI bridge raises, whatever the
    output is. *)
Lemma crewai_parse_nonzero (out err : string) (rc : Z) :
  rc <> 0 ->
  exists code message,
    Crewai.bridge.parse_outcome out err rc
    = ([], Raise (Bridge (Crewai.errors.BoltzPayBridgeError code message))).
Proof.
  intros Hrc. unfold Crewai.bridge.parse_outcome, loads, getitem.
  apply Z.eqb_neq in Hrc. rewrite Hrc. simpl.
  destruct (json_loads out) as [data|]; simpl; [|eauto].
  destruct data; simpl; eauto.
  destruct (dict_lookup "error" items) as [e|]; simpl; [|eauto].
  destruct e; simpl; eauto.
  destruct (dict_lookup "code" items0); simpl; [|eauto].
  destruct (dict_lookup "message" items0); simpl; eauto.
Qed.

Lemma crewai_parse_returns (out err : string) (rc : Z) (v : json) :
  outcome (Crewai.bridge.parse_outcome out err rc) = Return v ->
  json_loads out = Some v /\ rc = 0.
Proof.
  destruct (Z.eq_dec rc 0) as [->|Hrc].
  - rewrite crewai_parse_zero. destruct (json_loads out); simpl; [|discriminate].
    now intros [= ->].
  - destruct (crewai_parse_nonzero out err rc Hrc) as [c [m ->]]. discriminate.
Qed.

(** Every error the CrewAI bridge raises was made by the constructor of
    [errors.py]. *)
Lemma crewai_raises_made (cv : convention) (H : Host) (command : string)
    (args : option (list string)) (timeout : Z) (x : exn) :
  outcome (bridge_call CrewaiPkg cv H command args timeout) = Raise x ->
  exists c code message, x = Bridge (Crewai.errors.init c code message).
Proof.
  rewrite outcome_by_course.
  destruct (course_of H command args timeout) as [ | | |done].
  1-3: intros [= <-]; eexists _, _, _; reflexivity.
  simpl. destruct (Z.eq_dec (returncode done) 0) as [E|Hrc].
  - rewrite E, crewai_parse_zero. destruct (json_loads (stdout done)); simpl.
    + discriminate.
    + intros [= <-]. eexists _, _, _; reflexivity.
  - destruct (crewai_parse_nonzero (stdout done) (stderr done) _ Hrc) as [c [m ->]].
    intros [= <-]. eexists _, _, _; reflexivity.
Qed.

(** An error the LangChain bridge raises hands its message to
    [Exception.__init__]. *)
Lemma langchain_raises_made (cv : convention) (H : Host) (command : string)
    (args : option (list string)) (timeout : Z) (e : bridge_error) :
  outcome (bridge_call LangchainPkg cv H command args timeout) = Raise (Bridge e) ->
  exists c code message, e = Langchain.errors.init c code message.
Proof.
  rewrite outcome_by_course.
  destruct (course_of H command args timeout) as [ | | |done].
  1-3: intros [= <-]; eexists _, _, _; reflexivity.
  simpl. unfold Langchain.bridge.parse_outcome, loads, get_method.
  destruct (json_loads (strip (stdout done))) as [data|]; simpl.
  - destruct data; simpl; try discriminate.
    destruct (is_False _); simpl; [|discriminate].
    destruct (dict_lookup "error" items) as [er|]; simpl.
    + destruct er; simpl; try discriminate.
      destruct (dict_lookup "code" items0), (dict_lookup "message" items0);
        simpl; intros [= <-]; eexists _, _, _; reflexivity.
    + intros [= <-]; eexists _, _, _; reflexivity.
  - intros [= <-]; eexists _, _, _; reflexivity.
Qed.

(** What an entry point of a tool does: one bridge call, with the command
    of the tool and its argument list, and the result printed (or, in the
    CrewAI package, the error described). *)
Lemma invoke_unfold (e : entry_point) (H : Host) (c : tool_call) :
  invoke e H c
  = match e with
    | LangchainRun =>
        Langchain.tools.dumped
          (Langchain.bridge.run_cli H (command_of c) (Some (cli_args c)) DEFAULT_TIMEOUT)
    | LangchainArun =>
        Langchain.tools.dumped
          (Langchain.bridge.async_run_cli H (command_of c) (Some (cli_args c))
             DEFAULT_TIMEOUT)
    | CrewaiRun => Crewai.tools._safe_run H (command_of c) (Some (cli_args c))
    end.
Proof.
  destruct e, c as [url method [ch|] | url | url | [cat|] | | | ]; simpl;
    try reflexivity;
    try (destruct ch; reflexivity); try (destruct cat; reflexivity).
Qed.

Lemma trace_dumped (m : M json) : trace (Langchain.tools.dumped m) = trace m.
Proof.
  destruct m as [t [v|x]]; simpl; [apply app_nil_r | reflexivity].
Qed.

Lemma trace_safe_run (H : Host) (command : string) (args : option (list string)) :
  trace (Crewai.tools._safe_run H command args)
  = trace (Crewai.bridge.run_cli H command args DEFAULT_TIMEOUT).
Proof.
  unfold Crewai.tools._safe_run.
  destruct (Crewai.bridge.run_cli H command args DEFAULT_TIMEOUT) as [t [v|x]]; simpl.
  - apply app_nil_r.
  - destruct x; simpl; try reflexivity. apply app_nil_r.
Qed.

(** The calls an entry point makes on the process API are those of its
    bridge call. *)
Lemma trace_invoke (e : entry_point) (H : Host) (c : tool_call) :
  trace (invoke e H c)
  = trace (bridge_call (fst (bridge_of e)) (snd (bridge_of e)) H
             (command_of c) (Some (cli_args c)) DEFAULT_TIMEOUT).
Proof.
  rewrite invoke_unfold. destruct e; simpl.
  - apply trace_dumped.
  - apply trace_dumped.
  - apply trace_safe_run.
Qed.

Lemma spawned_by_bridge (pkg : package) (cv : convention) (H : Host)
    (command : string) (args : option (list string)) (timeout : Z) (npx : string) :
  shutil_which H "npx" = Some npx ->
  spawned (trace (bridge_call pkg cv H command args timeout))
  = [command_line npx command args].
Proof.
  intros Hw. rewrite trace_by_course, Hw. destruct cv; simpl; [reflexivity|].
  destruct (course_of H command args timeout); reflexivity.
Qed.

End Parsing.

(* ================================================================== *)
(** * The error envelope (C1) *)
(* ================================================================== *)

(** C1, as the code has it.  When the standard output of the completed
    process parses as the AUTH_MISSING error envelope, the LangChain
    bridge (sync and async) fails with a [BoltzPayBridgeError] of code
    [AUTH_MISSING] and of message [Coinbase credentials not configured]
    whatever the exit code is; the CrewAI bridge (sync and async) does so
    when the exit code is not zero, and with exit code zero it returns the
    parsed envelope as its result. *)
Theorem error_envelope_by_package (R : Runtime) (H : Host) (pkg : package)
    (cv : convention) (command : string) (args : option (list string))
    (timeout : Z) (done : CompletedProcess) :
  loads_ignores_margin R ->
  course_of H command args timeout = Completes done ->
  json_loads (stdout done) = Some AUTH_MISSING_ENVELOPE ->
  (pkg = LangchainPkg \/ returncode done <> 0 ->
   exists e,
     outcome (bridge_call pkg cv H command args timeout) = Raise (Bridge e)
     /\ cls e = ClsBridgeError
     /\ code e = JStr "AUTH_MISSING"
     /\ message e = JStr "Coinbase credentials not configured")
  /\ (pkg = CrewaiPkg -> returncode done = 0 ->
      outcome (bridge_call pkg cv H command args timeout)
      = Return AUTH_MISSING_ENVELOPE).
Proof.
  intros Hmargin Hcourse Hloads. rewrite outcome_by_course, Hcourse. split.
  - intros Hcase.
    exists (bridge_error_of pkg (JStr "AUTH_MISSING")
              (JStr "Coinbase credentials not configured")).
    split; [|destruct pkg; repeat split].
    destruct pkg; simpl.
    + rewrite (langchain_parse_envelope _ _ _ _ _ _ _ (Hmargin _ _ Hloads)
                 eq_refl eq_refl eq_refl eq_refl).
      reflexivity.
    + destruct Hcase as [Hpkg|Hrc]; [discriminate|].
      rewrite (crewai_parse_envelope _ _ _ _ _ _ _ Hrc Hloads eq_refl eq_refl eq_refl).
      reflexivity.
  - intros -> Hrc. simpl. rewrite Hrc, crewai_parse_zero, Hloads. reflexivity.
Qed.

Lemma error_envelope_by_package_witness :
  exists e,
    outcome (bridge_call (R := Reference.runtime) LangchainPkg Sync
               (machine (Reference.exits 1 AUTH_MISSING_TEXT EmptyString))
               "fetch" (Some ["https://example.com"]) 30)
    = Raise (Bridge e)
    /\ cls e = ClsBridgeError
    /\ code e = JStr "AUTH_MISSING"
    /\ message e = JStr "Coinbase credentials not configured".
Proof.
  apply (proj1 (error_envelope_by_package Reference.runtime
                  (machine (Reference.exits 1 AUTH_MISSING_TEXT EmptyString))
                  LangchainPkg Sync "fetch" (Some ["https://example.com"]) 30
                  {| returncode := 1; stdout := AUTH_MISSING_TEXT; stderr := EmptyString |}
                  ReferenceFacts.loads_strip eq_refl eq_refl)).
  left. reflexivity.
Defined.

(** C1 fails as stated: the CrewAI [run_cli], on a process that prints the
    AUTH_MISSING envelope and exits with code 0, raises nothing and returns
    the envelope. *)
Lemma error_envelope_exit_zero_counterexample :
  course_of (machine (Reference.exits 0 AUTH_MISSING_TEXT EmptyString))
    "fetch" (Some ["https://example.com"]) 30
  = Completes {| returncode := 0; stdout := AUTH_MISSING_TEXT; stderr := EmptyString |}
  /\ @json_loads Reference.runtime AUTH_MISSING_TEXT
     = Some AUTH_MISSING_ENVELOPE
  /\ outcome (Crewai.bridge.run_cli (R := Reference.runtime)
                (machine (Reference.exits 0 AUTH_MISSING_TEXT EmptyString))
                "fetch" (Some ["https://example.com"]) 30)
     = Return AUTH_MISSING_ENVELOPE
  /\ ~ (exists e,
          outcome (bridge_call (R := Reference.runtime) CrewaiPkg Sync
                     (machine (Reference.exits 0 AUTH_MISSING_TEXT EmptyString))
                     "fetch" (Some ["https://example.com"]) 30)
          = Raise (Bridge e)).
Proof.
  repeat split; try reflexivity.
  intros [e He]. vm_compute in He. discriminate.
Qed.

(* ================================================================== *)
(** * Output that is not JSON (C2) *)
(* ================================================================== *)

(** C2, as the code has it.  For a completed process:
    - LangChain bridge (sync and async): when the stripped standard output
      is not valid JSON the call fails with code [CLI_ERROR]; the message
      is the stripped standard error when that is not empty, and
      [CLI exited with code N], with [N] the exit code, when it is;
    - CrewAI bridge (sync and async), exit code not zero: when the standard
      output is not valid JSON the call fails with code [CLI_ERROR]; the
      message is the standard error when that is not empty, and
      [Unknown error] when it is;
    - CrewAI bridge, exit code zero: when the standard output is not valid
      JSON the call fails with code [PARSE_ERROR] and a message made of
      the first 200 characters of the output. *)
Theorem invalid_output_by_package (R : Runtime) (H : Host) (cv : convention)
    (command : string) (args : option (list string)) (timeout : Z)
    (done : CompletedProcess) :
  course_of H command args timeout = Completes done ->
  (json_loads (strip (stdout done)) = None ->
   exists msg,
     outcome (bridge_call LangchainPkg cv H command args timeout)
     = Raise (Bridge (Langchain.errors.BoltzPayBridgeError (JStr "CLI_ERROR") (JStr msg)))
     /\ (strip (stderr done) <> EmptyString -> msg = strip (stderr done))
     /\ (strip (stderr done) = EmptyString ->
         msg = "CLI exited with code " +++ str_of_int (returncode done)
         /\ str_in (str_of_int (returncode done)) msg = true))
  /\ (json_loads (stdout done) = None -> returncode done <> 0 ->
      exists msg,
        outcome (bridge_call CrewaiPkg cv H command args timeout)
        = Raise (Bridge (Crewai.errors.BoltzPayBridgeError (JStr "CLI_ERROR") (JStr msg)))
        /\ (stderr done <> EmptyString -> msg = stderr done)
        /\ (stderr done = EmptyString -> msg = "Unknown error"))
  /\ (json_loads (stdout done) = None -> returncode done = 0 ->
      outcome (bridge_call CrewaiPkg cv H command args timeout)
      = Raise (Bridge (Crewai.errors.BoltzPayBridgeError (JStr "PARSE_ERROR")
                 (JStr ("Invalid JSON output: " +++ str_take 200 (stdout done)))))).
Proof.
  intros Hcourse. rewrite !outcome_by_course, Hcourse. simpl. repeat split.
  - intros Hl. rewrite (langchain_parse_invalid _ _ _ Hl).
    exists (str_or (strip (stderr done))
              ("CLI exited with code " +++ str_of_int (returncode done))).
    split; [reflexivity|].
    destruct (str_or_cases (strip (stderr done))
                ("CLI exited with code " +++ str_of_int (returncode done)))
      as [[Hne ->]|[He ->]]; split; intros Hs; try contradiction; try reflexivity.
    split; [reflexivity | apply str_in_end].
  - intros Hl Hrc. rewrite (crewai_parse_nonzero_invalid _ _ _ Hrc Hl).
    exists (str_or (stderr done) "Unknown error"). split; [reflexivity|].
    destruct (str_or_cases (stderr done) "Unknown error")
      as [[Hne ->]|[He ->]]; split; intros Hs; try contradiction; reflexivity.
  - intros Hl Hrc. rewrite Hrc, crewai_parse_zero, Hl. reflexivity.
Qed.

Lemma invalid_output_by_package_witness :
  exists msg,
    outcome (bridge_call (R := Reference.runtime) LangchainPkg Sync
               (machine (Reference.exits 1 "not json at all"
                           "Something went wrong on stderr"))
               "fetch" (Some ["https://example.com"]) 30)
    = Raise (Bridge (Langchain.errors.BoltzPayBridgeError (JStr "CLI_ERROR") (JStr msg)))
    /\ (strip "Something went wrong on stderr" <> EmptyString ->
        msg = strip "Something went wrong on stderr")
    /\ (strip "Something went wrong on stderr" = EmptyString ->
        msg = "CLI exited with code " +++ str_of_int 1
        /\ str_in (str_of_int 1) msg = true).
Proof.
  apply (proj1 (invalid_output_by_package Reference.runtime
                  (machine (Reference.exits 1 "not json at all"
                              "Something went wrong on stderr"))
                  Sync "fetch" (Some ["https://example.com"]) 30
                  {| returncode := 1; stdout := "not json at all";
                     stderr := "Something went wrong on stderr" |}
                  eq_refl)).
  reflexivity.
Defined.

(** C2 fails as stated: the CrewAI [run_cli], on a process that prints
    text that is not JSON, prints nothing on the standard error and exits
    with code 1, fails with the message [Unknown error], which does not
    contain the exit code. *)
Lemma invalid_output_unknown_error_counterexample :
  course_of (machine (Reference.exits 1 "not json at all" EmptyString))
    "fetch" (Some ["https://example.com"]) 30
  = Completes {| returncode := 1; stdout := "not json at all"; stderr := EmptyString |}
  /\ @json_loads Reference.runtime "not json at all" = None
  /\ outcome (Crewai.bridge.run_cli (R := Reference.runtime)
                (machine (Reference.exits 1 "not json at all" EmptyString))
                "fetch" (Some ["https://example.com"]) 30)
     = Raise (Bridge (Crewai.errors.BoltzPayBridgeError (R := Reference.runtime)
                        (JStr "CLI_ERROR") (JStr "Unknown error")))
  /\ str_in (str_of_int 1) "Unknown error" = false.
Proof. repeat split; reflexivity. Qed.

(* ================================================================== *)
(** * Exit code against envelope (C3) *)
(* ================================================================== *)

(** C3.  For a process that exits with a non-zero code and whose standard
    output is a success-shaped envelope (an object whose [success] is
    [true]), the two [run_cli] disagree: the one of [langchain_boltzpay]
    returns the envelope, the one of [boltzpay_crewai] raises a
    [BoltzPayBridgeError]. *)
Theorem sync_bridges_disagree (R : Runtime) (H : Host) (command : string)
    (args : option (list string)) (timeout : Z) (done : CompletedProcess)
    (envelope : json) :
  loads_ignores_margin R ->
  course_of H command args timeout = Completes done ->
  returncode done <> 0 ->
  json_loads (stdout done) = Some envelope ->
  success_shaped envelope ->
  outcome (Langchain.bridge.run_cli H command args timeout) = Return envelope
  /\ exists e,
       outcome (Crewai.bridge.run_cli H command args timeout) = Raise (Bridge e)
       /\ cls e = ClsBridgeError.
Proof.
  intros Hmargin Hcourse Hrc Hloads [items [-> Hsuccess]]. split.
  - change (Langchain.bridge.run_cli H command args timeout)
      with (bridge_call LangchainPkg Sync H command args timeout).
    rewrite outcome_by_course, Hcourse. simpl.
    rewrite (langchain_parse_passes _ _ _ _ (Hmargin _ _ Hloads)); [reflexivity|].
    unfold asserts_failure, dict_get. now rewrite Hsuccess.
  - change (Crewai.bridge.run_cli H command args timeout)
      with (bridge_call CrewaiPkg Sync H command args timeout).
    rewrite outcome_by_course, Hcourse. simpl.
    destruct (crewai_parse_nonzero (stdout done) (stderr done) _ Hrc) as [c [m ->]].
    eexists. split; reflexivity.
Qed.

Lemma sync_bridges_disagree_witness :
  outcome (Langchain.bridge.run_cli (R := Reference.runtime)
             (machine (Reference.exits 1 SUCCESS_TEXT EmptyString))
             "check" (Some ["https://example.com"]) 30)
  = Return SUCCESS_ENVELOPE
  /\ exists e,
       outcome (Crewai.bridge.run_cli (R := Reference.runtime)
                  (machine (Reference.exits 1 SUCCESS_TEXT EmptyString))
                  "check" (Some ["https://example.com"]) 30)
       = Raise (Bridge e)
       /\ cls e = ClsBridgeError.
Proof.
  apply (sync_bridges_disagree Reference.runtime
           (machine (Reference.exits 1 SUCCESS_TEXT EmptyString))
           "check" (Some ["https://example.com"]) 30
           {| returncode := 1; stdout := SUCCESS_TEXT; stderr := EmptyString |}
           SUCCESS_ENVELOPE ReferenceFacts.loads_strip eq_refl).
  - discriminate.
  - reflexivity.
  - eexists. split; reflexivity.
Defined.

(* ================================================================== *)
(** * The launcher is missing (C4) *)
(* ================================================================== *)

(** C4.  When [npx] is not on the search path, every bridge call (either
    package, sync or async, any command, so each of the seven) fails with
    the [BoltzPayNodeNotFoundError] of its package, of code
    [NODE_NOT_FOUND], without any call on the process API.  So does every
    tool through every entry point: the LangChain tools let the error
    through, the CrewAI tools, which catch every bridge error, return its
    description; none spawns a process. *)
Theorem launcher_missing_no_spawn (R : Runtime) (H : Host) :
  shutil_which H "npx" = None ->
  (forall pkg cv command args timeout,
      bridge_call pkg cv H command args timeout
      = ([], Raise (Bridge (node_not_found pkg)))
      /\ cls (node_not_found pkg) = ClsNodeNotFoundError
      /\ code (node_not_found pkg) = JStr "NODE_NOT_FOUND")
  /\ (forall c,
         invoke LangchainRun H c
         = ([], Raise (Bridge Langchain.errors.BoltzPayNodeNotFoundError))
         /\ invoke LangchainArun H c
            = ([], Raise (Bridge Langchain.errors.BoltzPayNodeNotFoundError))
         /\ invoke CrewaiRun H c
            = ([], Return ("Error (NODE_NOT_FOUND): "
                           +++ Crewai.errors.NODE_NOT_FOUND_MESSAGE)))
  /\ (forall e c, spawned (trace (invoke e H c)) = []).
Proof.
  intros Hw.
  assert (Hbridge : forall pkg cv command args timeout,
             bridge_call pkg cv H command args timeout
             = ([], Raise (Bridge (node_not_found pkg)))).
  { intros pkg cv command args timeout.
    destruct pkg, cv; simpl;
      unfold Langchain.bridge.run_cli, Langchain.bridge.async_run_cli,
        Crewai.bridge.run_cli, Crewai.bridge.async_run_cli,
        Langchain.bridge._find_npx, Crewai.bridge._find_npx;
      rewrite Hw; reflexivity. }
  assert (Htools : forall c,
             invoke LangchainRun H c
             = ([], Raise (Bridge Langchain.errors.BoltzPayNodeNotFoundError))
             /\ invoke LangchainArun H c
                = ([], Raise (Bridge Langchain.errors.BoltzPayNodeNotFoundError))
             /\ invoke CrewaiRun H c
                = ([], Return ("Error (NODE_NOT_FOUND): "
                               +++ Crewai.errors.NODE_NOT_FOUND_MESSAGE))).
  { intros c. rewrite !invoke_unfold. unfold Crewai.tools._safe_run.
    pose proof (Hbridge LangchainPkg Sync (command_of c) (Some (cli_args c))
                  DEFAULT_TIMEOUT) as H1.
    pose proof (Hbridge LangchainPkg Async (command_of c) (Some (cli_args c))
                  DEFAULT_TIMEOUT) as H2.
    pose proof (Hbridge CrewaiPkg Sync (command_of c) (Some (cli_args c))
                  DEFAULT_TIMEOUT) as H3.
    unfold bridge_call in H1, H2, H3. rewrite H1, H2, H3.
    repeat split. }
  split; [|split].
  - intros pkg cv command args timeout. split; [apply Hbridge|].
    destruct pkg; split; reflexivity.
  - exact Htools.
  - intros e c. destruct (Htools c) as [H1 [H2 H3]].
    destruct e; [rewrite H1 | rewrite H2 | rewrite H3]; reflexivity.
Qed.

Lemma launcher_missing_no_spawn_witness :
  bridge_call (R := Reference.runtime) CrewaiPkg Async bare_machine "wallet" None 30
  = ([], Raise (Bridge (node_not_found (R := Reference.runtime) CrewaiPkg)))
  /\ cls (node_not_found (R := Reference.runtime) CrewaiPkg) = ClsNodeNotFoundError
  /\ code (node_not_found (R := Reference.runtime) CrewaiPkg) = JStr "NODE_NOT_FOUND".
Proof.
  exact (proj1 (launcher_missing_no_spawn Reference.runtime bare_machine eq_refl)
           CrewaiPkg Async "wallet" None 30).
Defined.

(* ================================================================== *)
(** * The child outlives the timeout (C5) *)
(* ================================================================== *)

(** C5.  When the child is still running at the end of the timeout, every
    bridge call (either package, sync or async) fails with a
    [BoltzPayTimeoutError] of code [TIMEOUT] whose message contains the
    decimal digits of the timeout; the async functions have by then
    called [proc.kill()] and awaited [proc.wait()], in this order, after
    the wait that timed out. *)
Theorem timeout_fails_after_kill (R : Runtime) (H : Host) (pkg : package)
    (cv : convention) (command : string) (args : option (list string))
    (timeout : Z) :
  course_of H command args timeout = TimesOut ->
  (exists e msg,
      outcome (bridge_call pkg cv H command args timeout) = Raise (Bridge e)
      /\ cls e = ClsTimeoutError
      /\ code e = JStr "TIMEOUT"
      /\ message e = JStr msg
      /\ str_in (str_of_int timeout) msg = true)
  /\ (exists npx,
         shutil_which H "npx" = Some npx
         /\ trace (bridge_call pkg Async H command args timeout)
            = [CreateSubprocessExec (command_line npx command args);
               WaitForCommunicate timeout; ProcKill; ProcWait]).
Proof.
  intros Hcourse. split.
  - rewrite outcome_by_course, Hcourse. exists (timed_out pkg timeout).
    destruct pkg.
    + exists ("BoltzPay CLI command timed out after " +++ str_of_int timeout
              +++ " seconds").
      repeat split.
      exact (str_in_middle (str_of_int timeout)
               "BoltzPay CLI command timed out after " " seconds").
    + exists ("CLI command timed out after " +++ str_of_int timeout +++ "s").
      repeat split.
      exact (str_in_middle (str_of_int timeout) "CLI command timed out after " "s").
  - rewrite trace_by_course, Hcourse. unfold course_of in Hcourse.
    destruct (shutil_which H "npx") as [npx|]; [|discriminate].
    exists npx. split; reflexivity.
Qed.

Lemma timeout_fails_after_kill_witness :
  (exists e msg,
      outcome (bridge_call (R := Reference.runtime) CrewaiPkg Async
                 (machine Reference.hangs) "fetch" (Some ["https://example.com"]) 30)
      = Raise (Bridge e)
      /\ cls e = ClsTimeoutError
      /\ code e = JStr "TIMEOUT"
      /\ message e = JStr msg
      /\ str_in (str_of_int 30) msg = true)
  /\ (exists npx,
         shutil_which (machine Reference.hangs) "npx" = Some npx
         /\ trace (bridge_call (R := Reference.runtime) CrewaiPkg Async
                     (machine Reference.hangs) "fetch"
                     (Some ["https://example.com"]) 30)
            = [CreateSubprocessExec
                 (command_line npx "fetch" (Some ["https://example.com"]));
               WaitForCommunicate 30; ProcKill; ProcWait]).
Proof.
  exact (timeout_fails_after_kill Reference.runtime (machine Reference.hangs)
           CrewaiPkg Async "fetch" (Some ["https://example.com"]) 30 eq_refl).
Defined.

(* ================================================================== *)
(** * The envelope comes back as it was read (C6) *)
(* ================================================================== *)

(** C6.  For a completed process whose standard output parses as a
    success-shaped envelope: whatever a bridge function (either package,
    sync or async) returns is that envelope itself, hence with the same
    [data], [payment] and [metadata]; and the bridge does return it, the
    LangChain one always and the CrewAI one when the exit code is zero. *)
Theorem success_envelope_unchanged (R : Runtime) (H : Host) (pkg : package)
    (cv : convention) (command : string) (args : option (list string))
    (timeout : Z) (done : CompletedProcess) (envelope : json) :
  loads_ignores_margin R ->
  course_of H command args timeout = Completes done ->
  json_loads (stdout done) = Some envelope ->
  success_shaped envelope ->
  (forall v,
      outcome (bridge_call pkg cv H command args timeout) = Return v ->
      v = envelope)
  /\ (pkg = LangchainPkg \/ returncode done = 0 ->
      outcome (bridge_call pkg cv H command args timeout) = Return envelope).
Proof.
  intros Hmargin Hcourse Hloads [items [-> Hsuccess]].
  rewrite outcome_by_course, Hcourse. split.
  - intros v Hv. destruct pkg; simpl in Hv.
    + apply langchain_parse_returns in Hv.
      rewrite (Hmargin _ _ Hloads) in Hv. now injection Hv.
    + apply crewai_parse_returns in Hv as [Hv _].
      rewrite Hloads in Hv. now injection Hv.
  - intros Hcase. destruct pkg; simpl.
    + rewrite (langchain_parse_passes _ _ _ _ (Hmargin _ _ Hloads)); [reflexivity|].
      unfold asserts_failure, dict_get. now rewrite Hsuccess.
    + destruct Hcase as [Hpkg|Hrc]; [discriminate|].
      rewrite Hrc, crewai_parse_zero, Hloads. reflexivity.
Qed.

Lemma success_envelope_unchanged_witness :
  (forall v,
      outcome (bridge_call (R := Reference.runtime) CrewaiPkg Sync
                 (machine (Reference.exits 0 SUCCESS_TEXT EmptyString))
                 "check" (Some ["https://example.com"]) 30)
      = Return v ->
      v = SUCCESS_ENVELOPE)
  /\ (CrewaiPkg = LangchainPkg \/ 0 = 0 ->
      outcome (bridge_call (R := Reference.runtime) CrewaiPkg Sync
                 (machine (Reference.exits 0 SUCCESS_TEXT EmptyString))
                 "check" (Some ["https://example.com"]) 30)
      = Return SUCCESS_ENVELOPE).
Proof.
  apply (success_envelope_unchanged Reference.runtime
           (machine (Reference.exits 0 SUCCESS_TEXT EmptyString))
           CrewaiPkg Sync "check" (Some ["https://example.com"]) 30
           {| returncode := 0; stdout := SUCCESS_TEXT; stderr := EmptyString |}
           SUCCESS_ENVELOPE ReferenceFacts.loads_strip eq_refl eq_refl).
  eexists. split; reflexivity.
Defined.

(* ================================================================== *)
(** * The argument lists of the tools (C7, C10) and the command line (C8) *)
(* ================================================================== *)

Lemma list_or_empty_some {A : Type} (l : list A) : list_or_empty (Some l) = l.
Proof. destruct l; reflexivity. Qed.

(** The one command line an entry point of a tool spawns. *)
Lemma spawned_by_tool (R : Runtime) (H : Host) (e : entry_point) (c : tool_call)
    (npx : string) :
  shutil_which H "npx" = Some npx ->
  spawned (trace (invoke e H c))
  = [[npx; "-y"; "@boltzpay/cli"; command_of c] ++ cli_args c ++ ["--json"]].
Proof.
  intros Hw. rewrite trace_invoke, (spawned_by_bridge _ _ _ _ _ _ npx Hw).
  unfold command_line. now rewrite list_or_empty_some.
Qed.

Lemma optional_flag_cases (flag : string) (value : option string) :
  optional_flag flag value = []
  \/ exists v, value = Some v /\ v <> EmptyString /\ optional_flag flag value = [flag; v].
Proof.
  destruct value as [[|c v]|]; simpl; auto.
  right. exists (String c v). repeat split. discriminate.
Qed.

(** C7.  On a machine with the launcher, each of the seven tools, in both
    packages and through [_run] and [_arun] alike, spawns one command
    line, whose arguments between the command name and [--json] are the
    list of the documented mapping, in its order:
    [url, --method, method] for fetch, followed by [--chain, chain] only
    when a chain is provided (and then whenever it is not the empty string);
    [url] for check and quote; nothing for discover, or
    [--category, category] only when a category is provided (and then
    whenever it is not the empty string); nothing for budget, history and
    wallet.  The list depends on the inputs alone: it is the same in every
    runtime, on every machine, through every entry point, every time. *)
Theorem tool_arguments_documented (R : Runtime) (H : Host) (e : entry_point)
    (npx : string) :
  shutil_which H "npx" = Some npx ->
  (forall c,
      spawned (trace (invoke e H c))
      = [[npx; "-y"; "@boltzpay/cli"; command_of c] ++ cli_args c ++ ["--json"]])
  /\ (forall url method, cli_args (Fetch url method None) = [url; "--method"; method])
  /\ (forall url method chain,
         chain <> EmptyString ->
         cli_args (Fetch url method (Some chain))
         = [url; "--method"; method; "--chain"; chain])
  /\ (forall url method chain,
         cli_args (Fetch url method chain) = [url; "--method"; method]
         \/ exists v,
             chain = Some v
             /\ cli_args (Fetch url method chain)
                = [url; "--method"; method; "--chain"; v])
  /\ (forall url, cli_args (Check url) = [url])
  /\ (forall url, cli_args (Quote url) = [url])
  /\ cli_args (Discover None) = []
  /\ (forall category,
         category <> EmptyString ->
         cli_args (Discover (Some category)) = ["--category"; category])
  /\ (forall category,
         cli_args (Discover category) = []
         \/ exists v,
             category = Some v /\ cli_args (Discover category) = ["--category"; v])
  /\ cli_args Budget = []
  /\ cli_args History = []
  /\ cli_args Wallet = []
  /\ (forall (R' : Runtime) (H' : Host) (e' : entry_point) (c c' : tool_call),
         shutil_which H' "npx" = Some npx ->
         c = c' ->
         spawned (trace (invoke (R := R') e' H' c'))
         = spawned (trace (invoke (R := R) e H c))).
Proof.
  intros Hw. repeat split; try reflexivity.
  - intros c. exact (spawned_by_tool R H e c npx Hw).
  - intros url method [|a chain] Hne; [now elim Hne | reflexivity].
  - intros url method chain. simpl.
    destruct (optional_flag_cases "--chain" chain) as [->|[v [-> [_ ->]]]].
    + now left.
    + right. exists v. split; reflexivity.
  - intros [|a category] Hne; [now elim Hne | reflexivity].
  - intros category. simpl.
    destruct (optional_flag_cases "--category" category) as [->|[v [-> [_ ->]]]].
    + now left.
    + right. exists v. split; reflexivity.
  - intros R' H' e' c c' Hw' <-.
    now rewrite (spawned_by_tool R' H' e' c npx Hw'), (spawned_by_tool R H e c npx Hw).
Qed.

Lemma tool_arguments_documented_witness :
  spawned (trace (invoke (R := Reference.runtime) CrewaiRun
                    (machine (Reference.exits 0 SUCCESS_TEXT EmptyString))
                    (Fetch "https://x/api" "GET" (Some "svm"))))
  = [[NPX; "-y"; "@boltzpay/cli"; "fetch";
      "https://x/api"; "--method"; "GET"; "--chain"; "svm"; "--json"]].
Proof.
  exact (proj1 (tool_arguments_documented Reference.runtime
                  (machine (Reference.exits 0 SUCCESS_TEXT EmptyString))
                  CrewaiRun NPX eq_refl)
           (Fetch "https://x/api" "GET" (Some "svm"))).
Defined.

(** C10.  An optional input that is the empty string counts for nothing:
    fetch with an empty chain, and discover with an empty category, run
    exactly as with [None], in both packages and through every entry
    point; the argument lists are [url, --method, method], without
    [--chain], and the empty list. *)
Theorem empty_option_is_none (R : Runtime) (H : Host) (e : entry_point) :
  (forall url method,
      invoke e H (Fetch url method (Some EmptyString))
      = invoke e H (Fetch url method None)
      /\ cli_args (Fetch url method (Some EmptyString)) = [url; "--method"; method])
  /\ invoke e H (Discover (Some EmptyString)) = invoke e H (Discover None)
  /\ cli_args (Discover (Some EmptyString)) = []
  /\ (forall npx url method,
         shutil_which H "npx" = Some npx ->
         spawned (trace (invoke e H (Fetch url method (Some EmptyString))))
         = [[npx; "-y"; "@boltzpay/cli"; "fetch"; url; "--method"; method; "--json"]]
         /\ spawned (trace (invoke e H (Discover (Some EmptyString))))
            = [[npx; "-y"; "@boltzpay/cli"; "discover"; "--json"]]).
Proof.
  split; [|split; [|split]].
  - intros url method. split; [destruct e|]; reflexivity.
  - destruct e; reflexivity.
  - reflexivity.
  - intros npx url method Hw. split.
    + exact (spawned_by_tool R H e (Fetch url method (Some EmptyString)) npx Hw).
    + exact (spawned_by_tool R H e (Discover (Some EmptyString)) npx Hw).
Qed.

Lemma empty_option_is_none_witness :
  spawned (trace (invoke (R := Reference.runtime) LangchainArun
                    (machine (Reference.exits 0 SUCCESS_TEXT EmptyString))
                    (Fetch "https://x/api" "GET" (Some EmptyString))))
  = [[NPX; "-y"; "@boltzpay/cli"; "fetch"; "https://x/api"; "--method"; "GET"; "--json"]]
  /\ spawned (trace (invoke (R := Reference.runtime) LangchainArun
                       (machine (Reference.exits 0 SUCCESS_TEXT EmptyString))
                       (Discover (Some EmptyString))))
     = [[NPX; "-y"; "@boltzpay/cli"; "discover"; "--json"]].
Proof.
  exact (proj2 (proj2 (proj2
           (empty_option_is_none Reference.runtime
              (machine (Reference.exits 0 SUCCESS_TEXT EmptyString)) LangchainArun)))
           NPX "https://x/api" "GET" eq_refl).
Defined.

(** C8.  On a machine with the launcher at [npx], every bridge call
    (either package, sync or async) spawns exactly one command line,
    [npx, -y, @boltzpay/cli, command, ...args, --json]; its last element is
    [--json]; and the tools, the callers of the bridge, put in their
    argument list only their inputs and the flags [--method], [--chain] and
    [--category], never [--json] of their own. *)
Theorem command_line_shape (R : Runtime) (H : Host) (pkg : package)
    (cv : convention) (command : string) (args : option (list string))
    (timeout : Z) (npx : string) :
  shutil_which H "npx" = Some npx ->
  spawned (trace (bridge_call pkg cv H command args timeout))
  = [[npx; "-y"; "@boltzpay/cli"; command] ++ list_or_empty args ++ ["--json"]]
  /\ last ([npx; "-y"; "@boltzpay/cli"; command] ++ list_or_empty args ++ ["--json"])
       EmptyString
     = "--json"
  /\ (forall c x,
         In x (cli_args c) ->
         In x (inputs_of c) \/ x = "--method" \/ x = "--chain" \/ x = "--category")
  /\ (forall c, ~ In "--json" (inputs_of c) -> ~ In "--json" (cli_args c)).
Proof.
  intros Hw.
  assert (Hargs : forall c x,
             In x (cli_args c) ->
             In x (inputs_of c) \/ x = "--method" \/ x = "--chain" \/ x = "--category").
  { intros c x.
    destruct c as [url method [[|a ch]|] | url | url | [[|a cat]|] | | | ]; simpl;
      intuition auto. }
  repeat split.
  - exact (spawned_by_bridge pkg cv H command args timeout npx Hw).
  - rewrite (app_assoc _ _ ["--json"]). apply last_last.
  - exact Hargs.
  - intros c Hin Hc. destruct (Hargs c _ Hc) as [Hi|[Hx|[Hx|Hx]]];
      [exact (Hin Hi) | discriminate Hx ..].
Qed.

Lemma command_line_shape_witness :
  spawned (trace (bridge_call (R := Reference.runtime) LangchainPkg Sync
                    (machine (Reference.exits 0 SUCCESS_TEXT EmptyString))
                    "fetch" (Some ["https://api.example.com"; "--method"; "POST"]) 30))
  = [[NPX; "-y"; "@boltzpay/cli"; "fetch";
      "https://api.example.com"; "--method"; "POST"; "--json"]].
Proof.
  exact (proj1 (command_line_shape Reference.runtime
                  (machine (Reference.exits 0 SUCCESS_TEXT EmptyString))
                  LangchainPkg Sync "fetch"
                  (Some ["https://api.example.com"; "--method"; "POST"]) 30 NPX
                  eq_refl)).
Defined.

(* ================================================================== *)
(** * The text of an error (C9) *)
(* ================================================================== *)

(** C9, as the code has it.  In [boltzpay_crewai] the string form of an
    error the bridge raises is [code: message], and the text a tool
    returns for it is [Error (code): message]; both contain the code and
    the message.  In [langchain_boltzpay] the string form of an error the
    bridge raises is its message alone; the code is the attribute [code]
    of the error. *)
Theorem error_text_by_package (R : Runtime) (H : Host) (cv : convention)
    (command : string) (args : option (list string)) (timeout : Z)
    (e : bridge_error) :
  (outcome (bridge_call CrewaiPkg cv H command args timeout) = Raise (Bridge e) ->
   str_of_exc e = py_str (code e) +++ ": " +++ py_str (message e)
   /\ str_in (py_str (code e)) (str_of_exc e) = true
   /\ str_in (py_str (message e)) (str_of_exc e) = true)
  /\ (forall c,
         outcome (Crewai.bridge.run_cli H (command_of c) (Some (cli_args c))
                    DEFAULT_TIMEOUT)
         = Raise (Bridge e) ->
         exists text,
           outcome (invoke CrewaiRun H c) = Return text
           /\ text = "Error (" +++ py_str (code e) +++ "): " +++ py_str (message e)
           /\ str_in (py_str (code e)) text = true
           /\ str_in (py_str (message e)) text = true)
  /\ (outcome (bridge_call LangchainPkg cv H command args timeout) = Raise (Bridge e) ->
      str_of_exc e = py_str (message e)
      /\ str_in (py_str (message e)) (str_of_exc e) = true).
Proof.
  split; [|split].
  - intros Hr. apply crewai_raises_made in Hr as [c [co [m [= ->]]]].
    split; [reflexivity|]. split.
    + exact (str_in_here (py_str co) (": " +++ py_str m)).
    + exact (str_in_after _ (py_str co) _ (str_in_end (py_str m) ": ")).
  - intros c Hr. rewrite invoke_unfold. unfold Crewai.tools._safe_run.
    destruct (Crewai.bridge.run_cli H (command_of c) (Some (cli_args c))
                DEFAULT_TIMEOUT) as [t r].
    simpl in Hr. subst r. simpl. eexists. split; [reflexivity|].
    split; [reflexivity|]. split.
    + exact (str_in_middle (py_str (code e)) "Error (" ("): " +++ py_str (message e))).
    + exact (str_in_after _ "Error (" _
               (str_in_after _ (py_str (code e)) _
                  (str_in_end (py_str (message e)) "): "))).
  - intros Hr. apply langchain_raises_made in Hr as [c [co [m ->]]].
    split; [reflexivity|]. apply str_in_self.
Qed.

Lemma error_text_by_package_witness :
  str_of_exc (R := Reference.runtime)
    (Crewai.errors.BoltzPayTimeoutError (R := Reference.runtime) 30)
  = "TIMEOUT: CLI command timed out after 30s"
  /\ str_in "TIMEOUT" (str_of_exc (R := Reference.runtime)
                         (Crewai.errors.BoltzPayTimeoutError (R := Reference.runtime) 30))
     = true
  /\ str_in "CLI command timed out after 30s"
       (str_of_exc (R := Reference.runtime)
          (Crewai.errors.BoltzPayTimeoutError (R := Reference.runtime) 30))
     = true.
Proof.
  exact (proj1 (error_text_by_package Reference.runtime (machine Reference.hangs) Sync
                  "fetch" (Some ["https://example.com"]) 30
                  (Crewai.errors.BoltzPayTimeoutError (R := Reference.runtime) 30))
           eq_refl).
Defined.

(** C9 fails as stated: the error that the LangChain [run_cli] raises for
    a child that outlives 30 seconds has the code [TIMEOUT], and its
    string form, [BoltzPay CLI command timed out after 30 seconds], does
    not contain it. *)
Lemma langchain_error_text_counterexample :
  outcome (Langchain.bridge.run_cli (R := Reference.runtime) (machine Reference.hangs)
             "fetch" (Some ["https://example.com"]) 30)
  = Raise (Bridge (Langchain.errors.BoltzPayTimeoutError 30))
  /\ code (Langchain.errors.BoltzPayTimeoutError 30) = JStr "TIMEOUT"
  /\ str_of_exc (R := Reference.runtime) (Langchain.errors.BoltzPayTimeoutError 30)
     = "BoltzPay CLI command timed out after 30 seconds"
  /\ str_in "TIMEOUT"
       (str_of_exc (R := Reference.runtime) (Langchain.errors.BoltzPayTimeoutError 30))
     = false.
Proof. repeat split; reflexivity. Qed.

(* ================================================================== *)
(** * Further properties of the bridge *)
(* ================================================================== *)

Section MoreBridge.
Context {R : Runtime}.

Lemma outcome_dumped (m : M json) :
  outcome (Langchain.tools.dumped m)
  = match outcome m with
    | Return v => Return (json_dumps v 2)
    | Raise x => Raise x
    end.
Proof. destruct m as [t [v|x]]; reflexivity. Qed.

Lemma outcome_safe_run (H : Host) (command : string) (args : option (list string)) :
  outcome (Crewai.tools._safe_run H command args)
  = match outcome (Crewai.bridge.run_cli H command args DEFAULT_TIMEOUT) with
    | Return v => Return (json_dumps v 2)
    | Raise (Bridge e) => Return (error_text e)
    | Raise x => Raise x
    end.
Proof.
  unfold Crewai.tools._safe_run.
  destruct (Crewai.bridge.run_cli H command args DEFAULT_TIMEOUT) as [t [v|x]];
    [reflexivity|].
  destruct x; reflexivity.
Qed.

Lemma langchain_parse_not_object (out err : string) (rc : Z)
    (items : list (string * json)) (v : json) :
  json_loads (strip out) = Some (JDict items) ->
  dict_lookup "success" items = Some (JBool false) ->
  dict_lookup "error" items = Some v ->
  (forall error, v <> JDict error) ->
  Langchain.bridge.parse_outcome out err rc = ([], Raise AttributeError).
Proof.
  intros Hl Hs He Hv. unfold Langchain.bridge.parse_outcome, loads. rewrite Hl.
  simpl. unfold dict_get. rewrite Hs. simpl. rewrite He. simpl.
  destruct v; try reflexivity. now elim (Hv items0).
Qed.

Lemma langchain_parse_defaults (out err : string) (rc : Z)
    (items error : list (string * json)) :
  json_loads (strip out) = Some (JDict items) ->
  dict_lookup "success" items = Some (JBool false) ->
  dict_get "error" items (JDict []) = JDict error ->
  Langchain.bridge.parse_outcome out err rc
  = ([], Raise (Bridge (Langchain.errors.BoltzPayBridgeError
                          (dict_get "code" error (JStr "UNKNOWN"))
                          (dict_get "message" error (JStr "Unknown CLI error"))))).
Proof.
  intros Hl Hs He. unfold Langchain.bridge.parse_outcome, loads. rewrite Hl.
  simpl. unfold dict_get in *. rewrite Hs. simpl.
  destruct (dict_lookup "error" items) as [v|]; simpl.
  - subst v. simpl.
    destruct (dict_lookup "code" error), (dict_lookup "message" error); reflexivity.
  - injection He as <-. reflexivity.
Qed.

Lemma crewai_parse_nonzero_parsed (out err : string) (rc : Z) (v : json) :
  rc <> 0 -> json_loads out = Some v ->
  Crewai.bridge.parse_outcome out err rc
  = ([], Raise (Bridge
                  match error_parts v with
                  | Some (c, m) => Crewai.errors.BoltzPayBridgeError c m
                  | None =>
                      Crewai.errors.BoltzPayBridgeError (JStr "CLI_ERROR")
                        (JStr (str_or err "Unknown error"))
                  end)).
Proof.
  intros Hrc Hl. unfold Crewai.bridge.parse_outcome, loads, getitem, error_parts.
  apply Z.eqb_neq in Hrc. rewrite Hrc, Hl. simpl.
  destruct v; simpl; try reflexivity.
  destruct (dict_lookup "error" items) as [e|]; simpl; [|reflexivity].
  destruct e; simpl; try reflexivity.
  destruct (dict_lookup "code" items0); simpl; [|reflexivity].
  destruct (dict_lookup "message" items0); reflexivity.
Qed.

End MoreBridge.



(** X3.  The LangChain bridge lets an [AttributeError] out: when the
    output parses as an object whose [success] is [false] and whose [error]
    is present but is not itself an object, the call ends in that
    exception, which is no [BoltzPayBridgeError], and so do the LangChain
    tools. *)
Theorem langchain_error_not_object_leaks (R : Runtime) (H : Host) (cv : convention)
    (command : string) (args : option (list string)) (timeout : Z)
    (done : CompletedProcess) (items : list (string * json)) (v : json) :
  course_of H command args timeout = Completes done ->
  json_loads (strip (stdout done)) = Some (JDict items) ->
  dict_lookup "success" items = Some (JBool false) ->
  dict_lookup "error" items = Some v ->
  (forall error, v <> JDict error) ->
  outcome (bridge_call LangchainPkg cv H command args timeout) = Raise AttributeError.
Proof.
  intros Hc Hl Hs He Hv. rewrite outcome_by_course, Hc. simpl.
  now rewrite (langchain_parse_not_object _ _ _ items v Hl Hs He Hv).
Qed.

Lemma langchain_error_not_object_leaks_witness :
  outcome (bridge_call (R := Reference.runtime) LangchainPkg Sync
             (machine (Reference.exits 1 BOOM_TEXT EmptyString))
             "fetch" (Some ["https://example.com"]) 30)
  = Raise AttributeError.
Proof.
  apply (langchain_error_not_object_leaks Reference.runtime
           (machine (Reference.exits 1 BOOM_TEXT EmptyString)) Sync
           "fetch" (Some ["https://example.com"]) 30
           {| returncode := 1; stdout := BOOM_TEXT; stderr := EmptyString |}
           [("success", JBool false); ("error", JStr "boom")] (JStr "boom")
           eq_refl eq_refl eq_refl eq_refl).
  discriminate.
Defined.



(** X5.  In the LangChain bridge the parts of an error envelope are
    optional: for an output that parses as an object whose [success] is
    [false], a missing [error] counts as an empty object, a missing [code]
    as [UNKNOWN] and a missing [message] as [Unknown CLI error]; the call
    fails with the [BoltzPayBridgeError] of the code and message so
    found. *)
Theorem langchain_envelope_defaults (R : Runtime) (H : Host) (cv : convention)
    (command : string) (args : option (list string)) (timeout : Z)
    (done : CompletedProcess) (items error : list (string * json)) :
  course_of H command args timeout = Completes done ->
  json_loads (strip (stdout done)) = Some (JDict items) ->
  dict_lookup "success" items = Some (JBool false) ->
  dict_get "error" items (JDict []) = JDict error ->
  outcome (bridge_call LangchainPkg cv H command args timeout)
  = Raise (Bridge (Langchain.errors.BoltzPayBridgeError
                     (dict_get "code" error (JStr "UNKNOWN"))
                     (dict_get "message" error (JStr "Unknown CLI error")))).
Proof.
  intros Hc Hl Hs He. rewrite outcome_by_course, Hc. simpl.
  now rewrite (langchain_parse_defaults _ _ _ items error Hl Hs He).
Qed.

Lemma langchain_envelope_defaults_witness :
  outcome (bridge_call (R := Reference.runtime) LangchainPkg Async
             (machine (Reference.exits 0 BARE_FAILURE_TEXT EmptyString))
             "budget" None 30)
  = Raise (Bridge (Langchain.errors.BoltzPayBridgeError
                     (JStr "UNKNOWN") (JStr "Unknown CLI error"))).
Proof.
  exact (langchain_envelope_defaults Reference.runtime
           (machine (Reference.exits 0 BARE_FAILURE_TEXT EmptyString)) Async
           "budget" None 30
           {| returncode := 0; stdout := BARE_FAILURE_TEXT; stderr := EmptyString |}
           [("success", JBool false)] [] eq_refl eq_refl eq_refl eq_refl).
Defined.

(** X6.  With a non-zero exit code the CrewAI bridge never returns and
    never looks at [success]: for an output that parses as JSON it raises
    the error of [error.code] and [error.message] when the output is an
    object with an [error] object that has both keys, and otherwise (a
    value that is no object, a missing key, an [error] that is no object)
    [CLI_ERROR] with the standard error, or [Unknown error] when that is
    empty. *)
Theorem crewai_nonzero_exit_outcome (R : Runtime) (H : Host) (cv : convention)
    (command : string) (args : option (list string)) (timeout : Z)
    (done : CompletedProcess) (v : json) :
  course_of H command args timeout = Completes done ->
  returncode done <> 0 ->
  json_loads (stdout done) = Some v ->
  outcome (bridge_call CrewaiPkg cv H command args timeout)
  = Raise (Bridge
             match error_parts v with
             | Some (c, m) => Crewai.errors.BoltzPayBridgeError c m
             | None =>
                 Crewai.errors.BoltzPayBridgeError (JStr "CLI_ERROR")
                   (JStr (str_or (stderr done) "Unknown error"))
             end).
Proof.
  intros Hc Hrc Hl. rewrite outcome_by_course, Hc. simpl.
  now rewrite (crewai_parse_nonzero_parsed _ _ _ v Hrc Hl).
Qed.

Lemma crewai_nonzero_exit_outcome_witness :
  outcome (bridge_call (R := Reference.runtime) CrewaiPkg Sync
             (machine (Reference.exits 2 SUCCESS_TEXT "warning: deprecated"))
             "check" (Some ["https://example.com"]) 30)
  = Raise (Bridge (Crewai.errors.BoltzPayBridgeError (R := Reference.runtime)
                     (JStr "CLI_ERROR") (JStr "warning: deprecated"))).
Proof.
  apply (crewai_nonzero_exit_outcome Reference.runtime
           (machine (Reference.exits 2 SUCCESS_TEXT "warning: deprecated")) Sync
           "check" (Some ["https://example.com"]) 30
           {| returncode := 2; stdout := SUCCESS_TEXT; stderr := "warning: deprecated" |}
           SUCCESS_ENVELOPE eq_refl).
  - discriminate.
  - reflexivity.
Defined.

(** X7.  When the launcher is on the search path and is gone by the time
    the process is spawned, every bridge function fails with the
    [BoltzPayNodeNotFoundError] of its package, after the one attempt to
    spawn and nothing else. *)
Theorem spawn_race_node_not_found (R : Runtime) (H : Host) (pkg : package)
    (cv : convention) (command : string) (args : option (list string))
    (timeout : Z) :
  course_of H command args timeout = SpawnFails ->
  exists npx,
    shutil_which H "npx" = Some npx
    /\ bridge_call pkg cv H command args timeout
       = ([match cv with
           | Sync => SubprocessRun (command_line npx command args) timeout
           | Async => CreateSubprocessExec (command_line npx command args)
           end],
          Raise (Bridge (node_not_found pkg))).
Proof.
  intros Hc.
  pose proof (outcome_by_course pkg cv H command args timeout) as Ho.
  pose proof (trace_by_course pkg cv H command args timeout) as Ht.
  rewrite Hc in Ho, Ht. unfold course_of in Hc.
  destruct (shutil_which H "npx") as [npx|]; [|discriminate].
  exists npx. split; [reflexivity|].
  destruct (bridge_call pkg cv H command args timeout) as [t r].
  simpl in Ho, Ht. subst t r. destruct cv; reflexivity.
Qed.

Lemma spawn_race_node_not_found_witness :
  exists npx,
    shutil_which racing_machine "npx" = Some npx
    /\ bridge_call (R := Reference.runtime) LangchainPkg Async racing_machine
         "history" None 30
       = ([CreateSubprocessExec (command_line npx "history" None)],
          Raise (Bridge (node_not_found (R := Reference.runtime) LangchainPkg))).
Proof.
  exact (spawn_race_node_not_found Reference.runtime racing_machine LangchainPkg Async
           "history" None 30 eq_refl).
Defined.

(** X8.  A bridge call spawns at most one process, and it kills and reaps
    the process in one case only: the async functions, when the child
    outlives the timeout. *)
Theorem one_spawn_kill_on_timeout_only (R : Runtime) (H : Host) (pkg : package)
    (cv : convention) (command : string) (args : option (list string))
    (timeout : Z) :
  (length (spawned (trace (bridge_call pkg cv H command args timeout))) <= 1)%nat
  /\ (In ProcKill (trace (bridge_call pkg cv H command args timeout))
      <-> cv = Async /\ course_of H command args timeout = TimesOut)
  /\ (In ProcWait (trace (bridge_call pkg cv H command args timeout))
      <-> cv = Async /\ course_of H command args timeout = TimesOut).
Proof.
  rewrite trace_by_course. unfold course_of.
  destruct (shutil_which H "npx") as [npx|]; [|simpl; intuition (try discriminate; try lia)].
  destruct cv; [simpl; intuition (try discriminate; try lia)|].
  destruct (spawn H (command_line npx command args)) as [|finish];
    [simpl; intuition (try discriminate; try lia)|].
  destruct (finish timeout); simpl; intuition (try discriminate; try lia).
Qed.



(** X11.  The tools always give the bridge its default timeout of 30
    seconds: when the child of a tool call outlives 30 seconds, a CrewAI
    tool returns [Error (TIMEOUT): CLI command timed out after 30s] and a
    LangChain tool raises the [BoltzPayTimeoutError] for 30 seconds, and
    30 is the timeout handed to [subprocess.run] and to
    [asyncio.wait_for]. *)
Theorem tool_timeout_is_thirty (R : Runtime) (H : Host) (c : tool_call) :
  course_of H (command_of c) (Some (cli_args c)) 30 = TimesOut ->
  outcome (invoke CrewaiRun H c)
  = Return "Error (TIMEOUT): CLI command timed out after 30s"
  /\ outcome (invoke LangchainRun H c)
     = Raise (Bridge (Langchain.errors.BoltzPayTimeoutError 30))
  /\ outcome (invoke LangchainArun H c)
     = Raise (Bridge (Langchain.errors.BoltzPayTimeoutError 30))
  /\ exists npx,
       trace (invoke CrewaiRun H c)
       = [SubprocessRun (command_line npx (command_of c) (Some (cli_args c))) 30]
       /\ trace (invoke LangchainRun H c)
          = [SubprocessRun (command_line npx (command_of c) (Some (cli_args c))) 30]
       /\ trace (invoke LangchainArun H c)
          = [CreateSubprocessExec (command_line npx (command_of c) (Some (cli_args c)));
             WaitForCommunicate 30; ProcKill; ProcWait].
Proof.
  intros Hc.
  pose proof (outcome_by_course CrewaiPkg Sync H (command_of c) (Some (cli_args c))
                DEFAULT_TIMEOUT) as Hcrew.
  pose proof (outcome_by_course LangchainPkg Sync H (command_of c) (Some (cli_args c))
                DEFAULT_TIMEOUT) as Hrun.
  pose proof (outcome_by_course LangchainPkg Async H (command_of c) (Some (cli_args c))
                DEFAULT_TIMEOUT) as Harun.
  unfold DEFAULT_TIMEOUT in Hcrew, Hrun, Harun. rewrite Hc in Hcrew, Hrun, Harun.
  unfold bridge_call in Hcrew, Hrun, Harun.
  repeat split.
  - rewrite invoke_unfold, outcome_safe_run. unfold DEFAULT_TIMEOUT. now rewrite Hcrew.
  - rewrite invoke_unfold, outcome_dumped. unfold DEFAULT_TIMEOUT. now rewrite Hrun.
  - rewrite invoke_unfold, outcome_dumped. unfold DEFAULT_TIMEOUT. now rewrite Harun.
  - rewrite !trace_invoke, !trace_by_course. unfold DEFAULT_TIMEOUT. rewrite Hc.
    unfold course_of in Hc.
    destruct (shutil_which H "npx") as [npx|]; [|discriminate].
    exists npx. repeat split.
Qed.

Lemma tool_timeout_is_thirty_witness :
  outcome (invoke (R := Reference.runtime) CrewaiRun (machine Reference.hangs)
             (Check "https://example.com"))
  = Return "Error (TIMEOUT): CLI command timed out after 30s".
Proof.
  exact (proj1 (tool_timeout_is_thirty Reference.runtime (machine Reference.hangs)
                  (Check "https://example.com") eq_refl)).
Defined.

(* ================================================================== *)
(** * Lengths and margins of text *)
(* ================================================================== *)




Lemma lstrip_all_space (s : string) : all_space s = true -> lstrip s = EmptyString.
Proof.
  induction s as [|c s IH]; simpl; [reflexivity|].
  intros Hs. apply andb_prop in Hs as [-> Hs]. exact (IH Hs).
Qed.

Lemma strip_all_space (s : string) : all_space s = true -> strip s = EmptyString.
Proof. intros Hs. unfold strip. now rewrite (lstrip_all_space s Hs). Qed.



(** X13.  A standard error made of white space only counts as empty in
    the LangChain bridge and as text in the CrewAI bridge: for an output
    that is not JSON, the LangChain message is then
    [CLI exited with code N], and the CrewAI message (exit code not zero)
    is the white space itself. *)
Theorem blank_stderr_by_package (R : Runtime) (H : Host) (cv : convention)
    (command : string) (args : option (list string)) (timeout : Z)
    (done : CompletedProcess) :
  course_of H command args timeout = Completes done ->
  all_space (stderr done) = true ->
  stderr done <> EmptyString ->
  (json_loads (strip (stdout done)) = None ->
   outcome (bridge_call LangchainPkg cv H command args timeout)
   = Raise (Bridge (Langchain.errors.BoltzPayBridgeError (JStr "CLI_ERROR")
                      (JStr ("CLI exited with code " +++ str_of_int (returncode done))))))
  /\ (json_loads (stdout done) = None -> returncode done <> 0 ->
      outcome (bridge_call CrewaiPkg cv H command args timeout)
      = Raise (Bridge (Crewai.errors.BoltzPayBridgeError (JStr "CLI_ERROR")
                         (JStr (stderr done))))).
Proof.
  intros Hc Hs Hne. rewrite !outcome_by_course, Hc. simpl. split.
  - intros Hl. rewrite (langchain_parse_invalid _ _ _ Hl), (strip_all_space _ Hs).
    reflexivity.
  - intros Hl Hrc. rewrite (crewai_parse_nonzero_invalid _ _ _ Hrc Hl).
    destruct (stderr done); [now elim Hne | reflexivity].
Qed.

Lemma blank_stderr_by_package_witness :
  outcome (bridge_call (R := Reference.runtime) LangchainPkg Sync
             (machine (Reference.exits 3 "oops" " "))
             "fetch" (Some ["https://example.com"]) 30)
  = Raise (Bridge (Langchain.errors.BoltzPayBridgeError (JStr "CLI_ERROR")
                     (JStr ("CLI exited with code " +++ str_of_int 3)))).
Proof.
  apply (proj1 (blank_stderr_by_package Reference.runtime
                  (machine (Reference.exits 3 "oops" " ")) Sync
                  "fetch" (Some ["https://example.com"]) 30
                  {| returncode := 3; stdout := "oops"; stderr := " " |}
                  eq_refl eq_refl ltac:(discriminate))).
  reflexivity.
Defined.

(** X14.  The LangChain bridge takes an output for a failure only when it
    is an object whose [success] is the value [false]: any other parsed
    output (a value that is no object, an object without [success], or
    with a [success] that is [null], [0], a string, ...) is returned as it
    is, whatever the exit code. *)
Theorem langchain_returns_unless_success_false (R : Runtime) (H : Host)
    (cv : convention) (command : string) (args : option (list string))
    (timeout : Z) (done : CompletedProcess) (v : json) :
  course_of H command args timeout = Completes done ->
  json_loads (strip (stdout done)) = Some v ->
  (forall items, v = JDict items -> dict_lookup "success" items <> Some (JBool false)) ->
  outcome (bridge_call LangchainPkg cv H command args timeout) = Return v.
Proof.
  intros Hc Hl Hv. rewrite outcome_by_course, Hc. simpl.
  rewrite (langchain_parse_passes _ _ _ v Hl); [reflexivity|].
  destruct v as [ | | | | | |items]; try reflexivity.
  simpl. unfold dict_get. specialize (Hv items eq_refl).
  destruct (dict_lookup "success" items) as [[ |[|]| | | | | ]|]; try reflexivity.
  now elim Hv.
Qed.

Lemma langchain_returns_unless_success_false_witness :
  outcome (bridge_call (R := Reference.runtime) LangchainPkg Sync
             (machine (Reference.exits 1 "[1, 2]" "failed"))
             "history" None 30)
  = Return (JList [JInt 1; JInt 2]).
Proof.
  apply (langchain_returns_unless_success_false Reference.runtime
           (machine (Reference.exits 1 "[1, 2]" "failed")) Sync "history" None 30
           {| returncode := 1; stdout := "[1, 2]"; stderr := "failed" |}
           (JList [JInt 1; JInt 2]) eq_refl eq_refl).
  discriminate.
Defined.

(** X15.  Once the output parses, the LangChain bridge looks at nothing
    else: two completed processes with the same standard output, whatever
    their exit codes and standard errors, give the same result. *)
Theorem langchain_trusts_the_body (R : Runtime) (H H' : Host) (cv cv' : convention)
    (command command' : string) (args args' : option (list string))
    (timeout timeout' : Z) (done done' : CompletedProcess) (v : json) :
  course_of H command args timeout = Completes done ->
  course_of H' command' args' timeout' = Completes done' ->
  stdout done = stdout done' ->
  json_loads (strip (stdout done)) = Some v ->
  outcome (bridge_call LangchainPkg cv H command args timeout)
  = outcome (bridge_call LangchainPkg cv' H' command' args' timeout').
Proof.
  intros Hc Hc' Hout Hl. rewrite !outcome_by_course, Hc, Hc'. simpl.
  unfold Langchain.bridge.parse_outcome, loads. rewrite <- Hout, Hl. reflexivity.
Qed.

Lemma langchain_trusts_the_body_witness :
  outcome (bridge_call (R := Reference.runtime) LangchainPkg Sync
             (machine (Reference.exits 0 SUCCESS_TEXT EmptyString))
             "check" (Some ["https://example.com"]) 30)
  = outcome (bridge_call (R := Reference.runtime) LangchainPkg Async
               (machine (Reference.exits 7 SUCCESS_TEXT "npm warn"))
               "check" (Some ["https://example.com"]) 5).
Proof.
  exact (langchain_trusts_the_body Reference.runtime
           (machine (Reference.exits 0 SUCCESS_TEXT EmptyString))
           (machine (Reference.exits 7 SUCCESS_TEXT "npm warn")) Sync Async
           "check" "check" (Some ["https://example.com"]) (Some ["https://example.com"])
           30 5
           {| returncode := 0; stdout := SUCCESS_TEXT; stderr := EmptyString |}
           {| returncode := 7; stdout := SUCCESS_TEXT; stderr := "npm warn" |}
           SUCCESS_ENVELOPE eq_refl eq_refl eq_refl eq_refl).
Defined.

(** X16.  The name of a tool is [boltzpay_] followed by the CLI command
    its entry points spawn, in both packages; so the two packages give the
    same tool the same name, and two tools of a package never share
    one. *)
Theorem tool_name_is_command (R : Runtime) (H : Host) (e : entry_point)
    (c : tool_call) (npx : string) :
  shutil_which H "npx" = Some npx ->
  (exists command rest,
      spawned (trace (invoke e H c)) = [npx :: "-y" :: "@boltzpay/cli" :: command :: rest]
      /\ name_of (fst (bridge_of e)) (tool_of c) = "boltzpay_" +++ command)
  /\ (forall t, name_of LangchainPkg t = name_of CrewaiPkg t)
  /\ (forall pkg t t', name_of pkg t = name_of pkg t' -> t = t').
Proof.
  intros Hw. split; [|split].
  - exists (command_of c), (cli_args c ++ ["--json"]). split.
    + exact (spawned_by_tool R H e c npx Hw).
    + destruct e, c; reflexivity.
  - intros []; reflexivity.
  - intros [] [] []; simpl; intros Heq; try reflexivity; discriminate Heq.
Qed.

Lemma tool_name_is_command_witness :
  exists command rest,
    spawned (trace (invoke (R := Reference.runtime) LangchainArun
                      (machine (Reference.exits 0 SUCCESS_TEXT EmptyString)) Wallet))
    = [NPX :: "-y" :: "@boltzpay/cli" :: command :: rest]
    /\ name_of LangchainPkg WalletTool = "boltzpay_" +++ command.
Proof.
  exact (proj1 (tool_name_is_command Reference.runtime
                  (machine (Reference.exits 0 SUCCESS_TEXT EmptyString))
                  LangchainArun Wallet NPX eq_refl)).
Defined.

(** X17.  With exit code zero the CrewAI bridge returns whatever the
    output parses to, an error envelope included, and the tool prints it:
    [_run] then returns [json.dumps] of the parsed output and no error
    text. *)
Theorem crewai_exit_zero_returns_output (R : Runtime) (H : Host) (cv : convention)
    (c : tool_call) (done : CompletedProcess) (v : json) :
  course_of H (command_of c) (Some (cli_args c)) DEFAULT_TIMEOUT = Completes done ->
  returncode done = 0 ->
  json_loads (stdout done) = Some v ->
  outcome (bridge_call CrewaiPkg cv H (command_of c) (Some (cli_args c)) DEFAULT_TIMEOUT)
  = Return v
  /\ outcome (invoke CrewaiRun H c) = Return (json_dumps v 2).
Proof.
  intros Hc Hrc Hl.
  assert (Hb : forall cv',
             outcome (bridge_call CrewaiPkg cv' H (command_of c) (Some (cli_args c))
                        DEFAULT_TIMEOUT) = Return v).
  { intros cv'. rewrite outcome_by_course, Hc. simpl.
    now rewrite Hrc, crewai_parse_zero, Hl. }
  split; [apply Hb|].
  rewrite invoke_unfold, outcome_safe_run.
  specialize (Hb Sync). unfold bridge_call in Hb. now rewrite Hb.
Qed.

Lemma crewai_exit_zero_returns_output_witness :
  outcome (bridge_call (R := Reference.runtime) CrewaiPkg Sync
             (machine (Reference.exits 0 AUTH_MISSING_TEXT EmptyString))
             "budget" (Some []) 30)
  = Return AUTH_MISSING_ENVELOPE
  /\ outcome (invoke (R := Reference.runtime) CrewaiRun
                (machine (Reference.exits 0 AUTH_MISSING_TEXT EmptyString)) Budget)
     = Return (json_dumps (Runtime := Reference.runtime) AUTH_MISSING_ENVELOPE 2).
Proof.
  exact (crewai_exit_zero_returns_output Reference.runtime
           (machine (Reference.exits 0 AUTH_MISSING_TEXT EmptyString)) Sync Budget
           {| returncode := 0; stdout := AUTH_MISSING_TEXT; stderr := EmptyString |}
           AUTH_MISSING_ENVELOPE eq_refl eq_refl eq_refl).
Defined.
